(** * The ISO image job runner (spark/runners/iso_build.py)

    A shallow embedding of [IsoBuilder]: the job validation of [set_job],
    the assembly of the build script and the protocol that [run] drives
    against the schroot helpers, followed by the properties of the
    runner established on that embedding. *)

From Stdlib Require Import String Ascii List ZArith Bool Lia DecimalString.
Import ListNotations.
Open Scope list_scope.
Open Scope string_scope.

(** ** Python values

    The job arrives as a decoded JSON document.  Strings are sequences of
    code points below 256; floating point numbers are left out. *)

#[warnings="-register-all"]
Inductive pyval : Type :=
| PNone
| PBool (b : bool)
| PInt (z : Z)
| PStr (s : string)
| PList (l : list pyval)
| PDict (d : list (string * pyval)).

(** A dict keeps its items in insertion order. *)
Definition pydict : Type := list (string * pyval).

(** [bool(v)]: the truth value that [if v:] and [not v] test. *)
Definition truthy (v : pyval) : bool :=
  match v with
  | PNone => false
  | PBool b => b
  | PInt z => negb (z =? 0)%Z
  | PStr s => negb (s =? "")
  | PList l => match l with [] => false | _ :: _ => true end
  | PDict d => match d with [] => false | _ :: _ => true end
  end.

(** [d.get(key)] on a dict: the value stored under [key], else [None]. *)
Fixpoint dict_get (key : string) (d : pydict) : pyval :=
  match d with
  | [] => PNone
  | (k, v) :: rest => if k =? key then v else dict_get key rest
  end.

(** Exceptions that can leave the runner: the two the interpreter raises for
    the runner's own expressions, and the faults of the schroot helpers. *)
Inductive exn : Type :=
| AttributeError
| TypeError
| SandboxFault (what : string).

Inductive outcome (A : Type) : Type :=
| Ret (a : A)
| Exc (e : exn).
Arguments Ret {A} a.
Arguments Exc {A} e.

(** [v.get(key)]: only a dict has the method. *)
Definition py_get (v : pyval) (key : string) : outcome pyval :=
  match v with
  | PDict d => Ret (dict_get key d)
  | _ => Exc AttributeError
  end.

(** *** [str()] and [repr()], as used by [str.format] with an empty spec *)

Definition dquote : ascii := "034"%char.
Definition squote : ascii := "'"%char.
Definition backslash : ascii := "\"%char.

Definition hex_digit (n : nat) : ascii :=
  nth n ["0"; "1"; "2"; "3"; "4"; "5"; "6"; "7"; "8"; "9";
         "a"; "b"; "c"; "d"; "e"; "f"]%char "0"%char.

Definition contains (c : ascii) (s : string) : bool :=
  existsb (Ascii.eqb c) (list_ascii_of_string s).

(** One character of [repr(s)], [q] being the delimiter chosen for [s]. *)
Definition repr_char (q c : ascii) : string :=
  let n := nat_of_ascii c in
  if Ascii.eqb c q || Ascii.eqb c backslash then String backslash (String c "")
  else if Nat.eqb n 9 then "\t"
  else if Nat.eqb n 10 then "\n"
  else if Nat.eqb n 13 then "\r"
  else if Nat.ltb n 32 || Nat.eqb n 127 || (Nat.leb 128 n && Nat.leb n 160) || Nat.eqb n 173
       then "\x" ++ String (hex_digit (n / 16)) (String (hex_digit (n mod 16)) "")
  else String c "".

Definition repr_str (s : string) : string :=
  let q := if contains squote s && negb (contains dquote s) then dquote else squote in
  String q (String.concat "" (map (repr_char q) (list_ascii_of_string s)) ++ String q "").

Definition int_str (z : Z) : string := NilZero.string_of_int (Z.to_int z).

Fixpoint py_repr (v : pyval) : string :=
  match v with
  | PNone => "None"
  | PBool true => "True"
  | PBool false => "False"
  | PInt z => int_str z
  | PStr s => repr_str s
  | PList l => "[" ++ String.concat ", " (map py_repr l) ++ "]"
  | PDict d =>
      "{" ++ String.concat ", " (map (fun kv => repr_str (fst kv) ++ ": " ++ py_repr (snd kv)) d) ++ "}"
  end.

(** What ['{}'.format(v)] substitutes for [v]. *)
Definition py_str (v : pyval) : string :=
  match v with
  | PStr s => s
  | _ => py_repr v
  end.

(** ** [shlex.quote] *)

(** The characters outside [[^\w@%+=:,./-]] (with [re.ASCII]). *)
Definition safe_char (c : ascii) : bool :=
  let n := nat_of_ascii c in
  (Nat.leb 48 n && Nat.leb n 57) || (Nat.leb 65 n && Nat.leb n 90)
  || (Nat.leb 97 n && Nat.leb n 122)
  || contains c "_@%+=:,./-".

Fixpoint all_safe (s : string) : bool :=
  match s with
  | EmptyString => true
  | String c rest => safe_char c && all_safe rest
  end.

(** [s.replace("'", "'\"'\"'")] *)
Fixpoint replace_squote (s : string) : string :=
  match s with
  | EmptyString => EmptyString
  | String c rest =>
      if Ascii.eqb c squote
      then String squote (String dquote (String squote (String dquote
             (String squote (replace_squote rest)))))
      else String c (replace_squote rest)
  end.

Definition quote_str (s : string) : string :=
  if s =? "" then "''"
  else if all_safe s then s
  else String squote (replace_squote s ++ String squote "").

(** [shlex.quote(v)]: a false value gives the empty word before the argument
    is looked at; any other value that is not a string is refused by the
    regular expression search. *)
Definition shlex_quote (v : pyval) : outcome string :=
  if negb (truthy v) then Ret "''"
  else match v with
       | PStr s => Ret (quote_str s)
       | _ => Exc TypeError
       end.

(** ** The runner's state and [set_job] *)

Record IsoBuilder : Type := mkIsoBuilder {
  _workspace : option string;
  _job_data : option pyval;
  _chroot_name : option string
}.

(** [IsoBuilder()]: [__init__] sets no attribute. *)
Definition new_builder : IsoBuilder := mkIsoBuilder None None None.

Definition set_job (self : IsoBuilder) (job : pydict) (workspace : string)
  : outcome bool * IsoBuilder :=
  let self := mkIsoBuilder (Some workspace) (_job_data self) (_chroot_name self) in
  let job_data := dict_get "data" job in
  let self := mkIsoBuilder (_workspace self) (Some job_data) (_chroot_name self) in
  if negb (truthy job_data) then (Ret false, self)
  else
    match py_get job_data "suite" with
    | Exc e => (Exc e, self)
    | Ret suite_name =>
        let arch := dict_get "architecture" job in
        if negb (truthy suite_name) then (Ret false, self)
        else if negb (truthy arch) then (Ret false, self)
        else
          (Ret true,
           mkIsoBuilder (_workspace self) (_job_data self)
                        (Some (py_str suite_name ++ "-" ++ py_str arch)))
    end.

(** ** The build script of [run] *)

Definition bind_outcome {A B : Type} (m : outcome A) (k : A -> outcome B) : outcome B :=
  match m with
  | Ret a => k a
  | Exc e => Exc e
  end.

Notation "'let?' x ':=' m 'in' k" := (bind_outcome m (fun x => k))
  (at level 10, x name, m at level 100, k at level 200).

(** Reading an attribute of [self] that was never assigned. *)
Definition attr {A : Type} (field : option A) : outcome A :=
  match field with
  | Some a => Ret a
  | None => Exc AttributeError
  end.

(** [l.append(x)] *)
Definition list_append {A : Type} (l : list A) (x : A) : list A := (l ++ [x])%list.

(** Lines 63 to 89: the list [commands], in the order of the [append] calls. *)
Definition build_commands (self : IsoBuilder) (wsdir results_dir : string)
  : outcome (list string) :=
  let commands := [] in
  let commands := list_append commands "export DEBIAN_FRONTEND=noninteractive" in
  let commands := list_append commands ("cd " ++ wsdir) in
  let? job_data := attr (_job_data self) in
  let? url := py_get job_data "liveBuildGit" in
  let? quoted := shlex_quote url in
  let commands :=
    list_append commands ("git clone --depth=2 " ++ quoted ++ " " ++ wsdir ++ "/lb") in
  let commands := list_append commands "cd ./lb" in
  let? job_data := attr (_job_data self) in
  let? flavor := py_get job_data "flavor" in
  let? commands :=
    if truthy flavor
    then let? quoted := shlex_quote flavor in
         Ret (list_append commands
                     ("export FLAVOR=" ++ String dquote (quoted ++ String dquote "")))
    else Ret commands in
  let commands := list_append commands "lb config" in
  let commands := list_append commands "lb build" in
  let commands :=
    list_append commands "b2sum *.iso *.contents *.zsync *.packages > checksums.b2sum" in
  let commands :=
    list_append commands "sha256sum *.iso *.contents *.zsync *.packages > checksums.sha256sum" in
  let commands := list_append commands ("mv *.iso " ++ results_dir ++ "/") in
  let commands := list_append commands ("mv -f *.zsync " ++ results_dir ++ "/") in
  let commands := list_append commands ("mv -f *.contents " ++ results_dir ++ "/") in
  let commands := list_append commands ("mv -f *.files " ++ results_dir ++ "/") in
  let commands := list_append commands ("mv -f *.packages " ++ results_dir ++ "/") in
  let commands := list_append commands ("mv -f *.b2sum " ++ results_dir ++ "/") in
  let commands := list_append commands ("mv -f *.sha256sum " ++ results_dir ++ "/") in
  Ret commands.

(** ** The schroot helpers and the protocol of [run] *)

(** The job log handed to [run]; the runner reads its [job_id]. *)
Record JobLog : Type := mkJobLog { job_id : string }.

(** What a helper call does: hand back a value or raise. *)
Inductive resp (A : Type) : Type :=
| Returns (a : A)
| Raises (e : exn).
Arguments Returns {A} a.
Arguments Raises {A} e.

(** How a block of statements ends: by running off its end, by a [return]
    statement, or by an exception. *)
Inductive completion (A : Type) : Type :=
| Normal (a : A)
| Return (v : bool)
| Raise (e : exn).
Arguments Normal {A} a.
Arguments Return {A} v.
Arguments Raise {A} e.

Section Protocol.

(** The state of everything outside the runner, and the chroot object that
    [spark_schroot] yields. *)
Context {World Handle : Type}.

(** The functions imported from [spark.utils.schroot].  The two context
    managers are split into entering (which yields the bound value) and
    leaving (which is told the exception in flight, if any, and answers
    whether to swallow it). *)
Record SandboxProvider : Type := mkProvider {
  spark_schroot_enter :
    string -> string -> World -> resp (Handle * string * string) * World;
  spark_schroot_exit : option exn -> World -> resp bool * World;
  chroot_upgrade : Handle -> JobLog -> World -> resp pyval * World;
  chroot_run_logged :
    Handle -> JobLog -> list string -> string -> World -> resp Z * World;
  make_commandfile_enter : string -> list string -> World -> resp string * World;
  make_commandfile_exit : option exn -> World -> resp bool * World;
  chroot_copy : Handle -> string -> string -> World -> resp unit * World
}.

(** One entry of the transcript per helper call, with what it answered. *)
Inductive event : Type :=
| EvSchrootEnter (name jid : string) (r : resp (Handle * string * string))
| EvSchrootExit (exc : option exn) (r : resp bool)
| EvUpgrade (chroot : Handle) (r : resp pyval)
| EvRunLogged (chroot : Handle) (argv : list string) (user : string) (r : resp Z)
| EvMakeCommandfile (jid : string) (commands : list string) (r : resp string)
| EvCommandfileExit (exc : option exn) (r : resp bool)
| EvCopy (chroot : Handle) (src dst : string) (r : resp unit).

(** Statements: they read and change the world, add to the transcript and
    complete. *)
Definition M (A : Type) : Type := World -> completion A * World * list event.

Definition normal {A : Type} (a : A) : M A := fun w => (Normal a, w, []).
Definition return_ {A : Type} (v : bool) : M A := fun w => (Return v, w, []).

Definition bind {A B : Type} (m : M A) (k : A -> M B) : M B :=
  fun w =>
    let '(c, w1, t1) := m w in
    match c with
    | Normal a => let '(c2, w2, t2) := k a w1 in (c2, w2, (t1 ++ t2)%list)
    | Return v => (Return v, w1, t1)
    | Raise e => (Raise e, w1, t1)
    end.

(** An expression of the runner itself, which may raise. *)
Definition lift {A : Type} (o : outcome A) : M A :=
  fun w => (match o with Ret a => Normal a | Exc e => Raise e end, w, []).

(** A helper call, written down in the transcript. *)
Definition call {A : Type} (op : World -> resp A * World) (ev : resp A -> event) : M A :=
  fun w =>
    let '(r, w1) := op w in
    (match r with Returns a => Normal a | Raises e => Raise e end, w1, [ev r]).

(** [with enter as x: body].  If entering raises, nothing is left.  Else
    the block is left exactly once, however the body completed; leaving may
    itself raise, and may swallow the body's exception, in which case
    execution goes on after the block with the variables as they were
    ([kept]). *)
Definition with_ {X A : Type}
    (enter : World -> resp X * World) (ev_enter : resp X -> event)
    (leave : option exn -> World -> resp bool * World)
    (ev_leave : option exn -> resp bool -> event)
    (kept : A) (body : X -> M A) : M A :=
  fun w =>
    let '(r, w1) := enter w in
    match r with
    | Raises e => (Raise e, w1, [ev_enter r])
    | Returns x =>
        let '(c, w2, t2) := body x w1 in
        let exc := match c with Raise e => Some e | _ => None end in
        let '(r3, w3) := leave exc w2 in
        let c' :=
          match r3 with
          | Raises e' => Raise e'
          | Returns swallow =>
              match c with
              | Raise e => if swallow then Normal kept else Raise e
              | _ => c
              end
          end in
        (c', w3, (ev_enter r :: t2 ++ [ev_leave exc r3])%list)
    end.

Notation "x <- m ;; k" := (bind m (fun x => k))
  (at level 100, m at next level, right associativity).

Variable P : SandboxProvider.

Definition nonzero (ret : Z) : bool := negb (ret =? 0)%Z.

Definition run (self : IsoBuilder) (jlog : JobLog) (w : World)
  : outcome bool * World * list event :=
  match attr (_chroot_name self) with
  | Exc e => (Exc e, w, [])
  | Ret name =>
      let jid := job_id jlog in
      let '(c, w', t) :=
        with_ (spark_schroot_enter P name jid) (EvSchrootEnter name jid)
              (spark_schroot_exit P) EvSchrootExit tt
          (fun '(chroot, wsdir, results_dir) =>
             _ <- call (chroot_upgrade P chroot jlog) (EvUpgrade chroot) ;;
             let argv := ["apt-get"; "install"; "-y"; "git"; "ca-certificates"] in
             ret <- call (chroot_run_logged P chroot jlog argv "root")
                         (EvRunLogged chroot argv "root") ;;
             if nonzero ret then return_ false else
             let argv := ["apt-get"; "install"; "-y"; "live-build"] in
             ret <- call (chroot_run_logged P chroot jlog argv "root")
                         (EvRunLogged chroot argv "root") ;;
             if nonzero ret then return_ false else
             commands <- lift (build_commands self wsdir results_dir) ;;
             ret <- with_ (make_commandfile_enter P jid commands)
                          (EvMakeCommandfile jid commands)
                          (make_commandfile_exit P) EvCommandfileExit ret
                      (fun shfname =>
                         _ <- call (chroot_copy P chroot shfname shfname)
                                   (EvCopy chroot shfname shfname) ;;
                         let argv := ["sh"; "-e"; shfname] in
                         ret <- call (chroot_run_logged P chroot jlog argv "root")
                                     (EvRunLogged chroot argv "root") ;;
                         if nonzero ret then return_ false else normal ret) ;;
             if nonzero ret then return_ false else normal tt) w in
      match c with
      | Normal _ => (Ret true, w', t)
      | Return v => (Ret v, w', t)
      | Raise e => (Exc e, w', t)
      end
  end.

End Protocol.

Arguments SandboxProvider : clear implicits.
Arguments event : clear implicits.

(** What [run] returned or raised, and the transcript of its helper calls. *)
Definition result {A W T : Type} (x : A * W * T) : A := fst (fst x).
Definition transcript {A W T : Type} (x : A * W * T) : T := snd x.

(** Leaving the [spark_schroot] block: the release of the sandbox. *)
Definition is_release {Handle : Type} (ev : event Handle) : bool :=
  match ev with
  | EvSchrootExit _ _ => true
  | _ => false
  end.

(** The exception a helper call raised, if it raised. *)
Definition raised {Handle : Type} (ev : event Handle) : option exn :=
  let of_resp {A : Type} (r : resp A) :=
    match r with Returns _ => None | Raises e => Some e end in
  match ev with
  | EvSchrootEnter _ _ r => of_resp r
  | EvSchrootExit _ r => of_resp r
  | EvUpgrade _ r => of_resp r
  | EvRunLogged _ _ _ r => of_resp r
  | EvMakeCommandfile _ _ r => of_resp r
  | EvCommandfileExit _ r => of_resp r
  | EvCopy _ _ _ r => of_resp r
  end.

Definition releases {Handle : Type} (t : list (event Handle)) : nat :=
  length (filter is_release t).

(** The script as section 4.2, step 5 of the specification lists it, for a
    clone argument [quoted_url] and the lines [flavor_export] of step e. *)
Definition listed_script (quoted_url wsdir results_dir : string)
    (flavor_export : list string) : list string :=
  List.app
    ["export DEBIAN_FRONTEND=noninteractive";
     "cd " ++ wsdir;
     "git clone --depth=2 " ++ quoted_url ++ " " ++ wsdir ++ "/lb";
     "cd ./lb"]
    (List.app flavor_export
      ["lb config";
       "lb build";
       "b2sum *.iso *.contents *.zsync *.packages > checksums.b2sum";
       "sha256sum *.iso *.contents *.zsync *.packages > checksums.sha256sum";
       "mv *.iso " ++ results_dir ++ "/";
       "mv -f *.zsync " ++ results_dir ++ "/";
       "mv -f *.contents " ++ results_dir ++ "/";
       "mv -f *.files " ++ results_dir ++ "/";
       "mv -f *.packages " ++ results_dir ++ "/";
       "mv -f *.b2sum " ++ results_dir ++ "/";
       "mv -f *.sha256sum " ++ results_dir ++ "/"]).

(** The line the code appends for a flavor: the quoted value between double
    quotes. *)
Definition flavor_line (quoted : string) : string :=
  "export FLAVOR=" ++ String dquote (quoted ++ String dquote "").

Definition flavor_export (flavor : pyval) : list string :=
  match flavor with
  | PStr f => if f =? "" then [] else [flavor_line (quote_str f)]
  | _ => []
  end.

(** *** A scripted provider

    The helpers answer from fixed values, the installs and the script by
    their command line; the world counts the calls. *)

Record script : Type := mkScript {
  on_enter : resp (unit * string * string);
  on_exit : resp bool;
  on_upgrade : resp pyval;
  on_run : list string -> resp Z;
  on_make : resp string;
  on_cleanup : resp bool;
  on_copy : resp unit
}.

Definition scripted (s : script) : SandboxProvider nat unit :=
  mkProvider
    (fun _ _ n => (on_enter s, S n))
    (fun _ n => (on_exit s, S n))
    (fun _ _ n => (on_upgrade s, S n))
    (fun _ _ argv _ n => (on_run s argv, S n))
    (fun _ _ n => (on_make s, S n))
    (fun _ n => (on_cleanup s, S n))
    (fun _ _ _ n => (on_copy s, S n)).

(** Every command succeeds, though the upgrade reports a failure. *)
Definition upgrade_fails : script :=
  mkScript (Returns (tt, "/ws", "/res")) (Returns false) (Returns (PBool false))
           (fun _ => Returns 0%Z) (Returns "/tmp/job-1.sh") (Returns false) (Returns tt).

(** The install of git exits with status 100. *)
Definition git_install_fails : script :=
  mkScript (Returns (tt, "/ws", "/res")) (Returns false) (Returns (PBool true))
           (fun argv => if existsb (String.eqb "git") argv then Returns 100%Z else Returns 0%Z)
           (Returns "/tmp/job-1.sh") (Returns false) (Returns tt).

(** The build script exits with status 1. *)
Definition build_script_fails : script :=
  mkScript (Returns (tt, "/ws", "/res")) (Returns false) (Returns (PBool true))
           (fun argv => if existsb (String.eqb "sh") argv then Returns 1%Z else Returns 0%Z)
           (Returns "/tmp/job-1.sh") (Returns false) (Returns tt).

(** Copying the script into the chroot raises. *)
Definition copy_raises : script :=
  mkScript (Returns (tt, "/ws", "/res")) (Returns false) (Returns (PBool true))
           (fun _ => Returns 0%Z) (Returns "/tmp/job-1.sh") (Returns false)
           (Raises (SandboxFault "copy")).

(** *** Sample jobs *)

(** Suite at the top level, as the data model lists it, and none in [data]. *)
Definition job_suite_at_top : pydict :=
  [("suite", PStr "stable"); ("architecture", PStr "amd64");
   ("data", PDict [("liveBuildGit", PStr "https://example.org/lb.git")])].

(** No [data] at all. *)
Definition job_without_data : pydict :=
  [("suite", PStr "stable"); ("architecture", PStr "amd64")].

(** A valid job. *)
Definition job_stable_amd64 : pydict :=
  [("architecture", PStr "amd64");
   ("data", PDict [("suite", PStr "stable");
                   ("liveBuildGit", PStr "https://example.org/lb.git")])].

(** A valid job whose [data] has no [liveBuildGit]. *)
Definition job_without_git : pydict :=
  [("architecture", PStr "amd64"); ("data", PDict [("suite", PStr "stable")])].

(** A valid job asking for a flavor written in two words. *)
Definition job_two_word_flavor : pydict :=
  [("architecture", PStr "amd64");
   ("data", PDict [("suite", PStr "stable");
                   ("liveBuildGit", PStr "https://example.org/lb.git");
                   ("flavor", PStr "a b")])].

(** [self] after a successful [set_job(job, workspace)] on a fresh runner. *)
Definition configured (job : pydict) (workspace : string) : IsoBuilder :=
  snd (set_job new_builder job workspace).

(** ** Reading a shell word back

    Quote removal of the POSIX shell, for the words the script contains:
    between single quotes every character stands for itself; between double
    quotes every character does except [$], the backquote and the backslash;
    outside quotes the characters [shlex.quote] leaves bare stand for
    themselves.  What starts an expansion, an escape or a new word is outside
    this reading ([None]). *)

Inductive quoting : Type := Bare | InSingle | InDouble.

Fixpoint sh_word (q : quoting) (s : string) : option string :=
  match s with
  | EmptyString => match q with Bare => Some EmptyString | _ => None end
  | String c rest =>
      match q with
      | Bare =>
          if Ascii.eqb c squote then sh_word InSingle rest
          else if Ascii.eqb c dquote then sh_word InDouble rest
          else if safe_char c then option_map (String c) (sh_word Bare rest)
          else None
      | InSingle =>
          if Ascii.eqb c squote then sh_word Bare rest
          else option_map (String c) (sh_word InSingle rest)
      | InDouble =>
          if Ascii.eqb c dquote then sh_word Bare rest
          else if Ascii.eqb c "$" || Ascii.eqb c "`" || Ascii.eqb c backslash then None
          else option_map (String c) (sh_word InDouble rest)
      end
  end.

(** The value a word of the script denotes. *)
Definition sh_value (word : string) : option string := sh_word Bare word.

(** ** Reading a transcript *)

Fixpoint list_eqb (l1 l2 : list string) : bool :=
  match l1, l2 with
  | [], [] => true
  | x :: r1, y :: r2 => (x =? y) && list_eqb r1 r2
  | _, _ => false
  end.

(** The helper behind an entry, and for [chroot_run_logged] the command it
    was given. *)
Inductive step : Type :=
| SEnter | SUpgrade
| SInstallGit | SInstallLiveBuild | SRunScript | SOtherCommand
| SMake | SCopy | SCleanup | SRelease.

Definition command_of (argv : list string) : step :=
  if list_eqb argv ["apt-get"; "install"; "-y"; "git"; "ca-certificates"] then SInstallGit
  else if list_eqb argv ["apt-get"; "install"; "-y"; "live-build"] then SInstallLiveBuild
  else match argv with
       | [sh; flag; _] => if (sh =? "sh") && (flag =? "-e") then SRunScript else SOtherCommand
       | _ => SOtherCommand
       end.

Definition step_of {Handle : Type} (ev : event Handle) : step :=
  match ev with
  | EvSchrootEnter _ _ _ => SEnter
  | EvSchrootExit _ _ => SRelease
  | EvUpgrade _ _ => SUpgrade
  | EvRunLogged _ argv _ _ => command_of argv
  | EvMakeCommandfile _ _ _ => SMake
  | EvCommandfileExit _ _ => SCleanup
  | EvCopy _ _ _ _ => SCopy
  end.

(** [spark_schroot] yielded a sandbox. *)
Definition is_entered {Handle : Type} (ev : event Handle) : bool :=
  match ev with
  | EvSchrootEnter _ _ (Returns _) => true
  | _ => false
  end.

(** The world [run] left behind. *)
Definition world {A W T : Type} (x : A * W * T) : W := snd (fst x).

(** A provider that behaves as [P] does and keeps count, in the world, of
    how often each block was left: the releases of the sandbox first, the
    removals of the script file second. *)
Definition counting {World Handle : Type} (P : SandboxProvider World Handle)
  : SandboxProvider (World * (nat * nat)) Handle :=
  mkProvider
    (fun name jid '(w, n) =>
       let '(r, w') := spark_schroot_enter P name jid w in (r, (w', n)))
    (fun exc '(w, (releases, cleanups)) =>
       let '(r, w') := spark_schroot_exit P exc w in (r, (w', (S releases, cleanups))))
    (fun chroot jlog '(w, n) =>
       let '(r, w') := chroot_upgrade P chroot jlog w in (r, (w', n)))
    (fun chroot jlog argv user '(w, n) =>
       let '(r, w') := chroot_run_logged P chroot jlog argv user w in (r, (w', n)))
    (fun jid commands '(w, n) =>
       let '(r, w') := make_commandfile_enter P jid commands w in (r, (w', n)))
    (fun exc '(w, (releases, cleanups)) =>
       let '(r, w') := make_commandfile_exit P exc w in (r, (w', (releases, S cleanups))))
    (fun chroot src dst '(w, n) =>
       let '(r, w') := chroot_copy P chroot src dst w in (r, (w', n))).

(** [make_commandfile] yielded a script file. *)
Definition is_made {Handle : Type} (ev : event Handle) : bool :=
  match ev with
  | EvMakeCommandfile _ _ (Returns _) => true
  | _ => false
  end.

(** Leaving the [make_commandfile] block: the removal of the script file. *)
Definition is_cleanup {Handle : Type} (ev : event Handle) : bool :=
  match ev with
  | EvCommandfileExit _ _ => true
  | _ => false
  end.

(** Leaving a block with an exception in flight and answering to swallow it. *)
Definition swallowed {Handle : Type} (ev : event Handle) : bool :=
  match ev with
  | EvSchrootExit (Some _) (Returns true) => true
  | EvCommandfileExit (Some _) (Returns true) => true
  | _ => false
  end.

Definition is_str (v : pyval) : bool :=
  match v with
  | PStr _ => true
  | _ => false
  end.

(** A value [shlex.quote] refuses: true, and not a string. *)
Definition unquotable (v : pyval) : bool := truthy v && negb (is_str v).

(** *** More scripted providers and sample jobs *)

(** The install of live-build exits with status 100. *)
Definition live_build_install_fails : script :=
  mkScript (Returns (tt, "/ws", "/res")) (Returns false) (Returns (PBool true))
           (fun argv =>
              if existsb (String.eqb "live-build") argv then Returns 100%Z else Returns 0%Z)
           (Returns "/tmp/job-1.sh") (Returns false) (Returns tt).

(** The upgrade raises. *)
Definition upgrade_raises : script :=
  mkScript (Returns (tt, "/ws", "/res")) (Returns false) (Raises (SandboxFault "upgrade"))
           (fun _ => Returns 0%Z) (Returns "/tmp/job-1.sh") (Returns false) (Returns tt).

(** No chroot of that name. *)
Definition no_such_chroot : script :=
  mkScript (Raises (SandboxFault "schroot")) (Returns false) (Returns (PBool true))
           (fun _ => Returns 0%Z) (Returns "/tmp/job-1.sh") (Returns false) (Returns tt).

(** A job whose [data] is a string. *)
Definition job_data_is_text : pydict :=
  [("architecture", PStr "amd64"); ("data", PStr "suite=stable")].

(** A valid job that names two repositories in a list. *)
Definition job_two_repositories : pydict :=
  [("architecture", PStr "amd64");
   ("data", PDict [("suite", PStr "stable");
                   ("liveBuildGit", PList [PStr "https://example.org/a.git";
                                           PStr "https://example.org/b.git"])])].

(** The last entry of a transcript is the release, with the answer
    [spark_schroot_exit] gave when told [exc] in world [wb], and [run] left
    the world that call left. *)
Definition released_last {World Handle : Type} (P : SandboxProvider World Handle)
    (x : outcome bool * World * list (event Handle))
    (dflt : event Handle) (exc : option exn) (wb : World) : Prop :=
  last (transcript x) dflt = EvSchrootExit exc (fst (spark_schroot_exit P exc wb))
  /\ world x = snd (spark_schroot_exit P exc wb)
  /\ (forall e, fst (spark_schroot_exit P exc wb) = Raises e -> result x = Exc e)
  /\ (forall e, exc = Some e ->
        fst (spark_schroot_exit P exc wb) = Returns false -> result x = Exc e).

(** ** Running the moves of the script

    The [mv] lines as [sh -e] runs them in the build directory, after POSIX:
    a word [*ext] expands to the names in the directory that end in [ext]
    and do not start with a dot, and is left as it stands when there is
    none; [mv] moves the operands that exist and exits with a status above
    zero when one does not, [-f] asking only that it not prompt before
    overwriting; [sh -e] stops at the first command whose status is not
    zero.  The target directory is taken to exist.  Lines other than [mv]
    are outside this reading ([None]). *)










(** * Properties *)

(** ** [shlex.quote] *)

Lemma safe_char_not_quote (c : ascii) :
  safe_char c = true -> Ascii.eqb c squote = false /\ Ascii.eqb c dquote = false.
Proof.
  destruct c as [[] [] [] [] [] [] [] []]; vm_compute; intuition discriminate.
Qed.

Lemma sh_word_all_safe (s : string) : all_safe s = true -> sh_word Bare s = Some s.
Proof.
  induction s as [|c s IH]; simpl; intros H; [reflexivity|].
  apply andb_prop in H as [Hc Hs].
  destruct (safe_char_not_quote c Hc) as [-> ->].
  rewrite Hc, (IH Hs). reflexivity.
Qed.

Lemma sh_word_replace_squote (s : string) :
  sh_word InSingle (replace_squote s ++ String squote "") = Some s.
Proof.
  induction s as [|c s IH]; [reflexivity|].
  simpl replace_squote.
  destruct (Ascii.eqb c squote) eqn:E.
  - apply Ascii.eqb_eq in E; subst c.
    cbn -[replace_squote]. cbn in IH. rewrite IH. reflexivity.
  - cbn [String.append sh_word]. rewrite E, IH. reflexivity.
Qed.

(** The word [shlex.quote] makes of a string denotes that string. *)
Lemma sh_value_quote_str (s : string) : sh_value (quote_str s) = Some s.
Proof.
  unfold sh_value, quote_str.
  destruct (s =? "") eqn:E.
  - apply String.eqb_eq in E; subst; reflexivity.
  - destruct (all_safe s) eqn:A.
    + now apply sh_word_all_safe.
    + change (sh_word InSingle (replace_squote s ++ String squote "") = Some s).
      apply sh_word_replace_squote.
Qed.

Lemma shlex_quote_falsy (v : pyval) : truthy v = false -> shlex_quote v = Ret "''".
Proof. unfold shlex_quote; intros ->; reflexivity. Qed.

Lemma shlex_quote_str (s : string) : shlex_quote (PStr s) = Ret (quote_str s).
Proof.
  unfold shlex_quote, quote_str; simpl.
  destruct (s =? ""); reflexivity.
Qed.

(** ** [set_job] *)

Lemma truthy_str (s : string) : truthy (PStr s) = true <-> s <> "".
Proof.
  simpl. destruct (s =? "") eqn:E; simpl.
  - apply String.eqb_eq in E. split; [discriminate | congruence].
  - apply String.eqb_neq in E. tauto.
Qed.

Lemma truthy_dict (d : pydict) : truthy (PDict d) = true <-> d <> [].
Proof. destruct d; simpl; split; congruence. Qed.

(** The one path on which [set_job] answers [True]. *)
Lemma set_job_accepts (self : IsoBuilder) (job : pydict) (ws : string) (d : pydict) :
  dict_get "data" job = PDict d ->
  d <> [] ->
  truthy (dict_get "suite" d) = true ->
  truthy (dict_get "architecture" job) = true ->
  set_job self job ws =
    (Ret true,
     mkIsoBuilder (Some ws) (Some (PDict d))
       (Some (py_str (dict_get "suite" d) ++ "-" ++ py_str (dict_get "architecture" job)))).
Proof.
  intros Hd Hne Hs Ha. unfold set_job. rewrite Hd.
  apply truthy_dict in Hne. rewrite Hne. simpl. rewrite Hs, Ha. reflexivity.
Qed.

Lemma set_job_true_inv (self : IsoBuilder) (job : pydict) (ws : string) :
  fst (set_job self job ws) = Ret true ->
  exists d, dict_get "data" job = PDict d /\ d <> [] /\
            truthy (dict_get "suite" d) = true /\
            truthy (dict_get "architecture" job) = true.
Proof.
  unfold set_job.
  destruct (truthy (dict_get "data" job)) eqn:T; simpl; [|discriminate].
  destruct (dict_get "data" job) as [| | | | |d] eqn:D; simpl; try discriminate.
  destruct (truthy (dict_get "suite" d)) eqn:S; simpl; [|discriminate].
  destruct (truthy (dict_get "architecture" job)) eqn:A; simpl; [|discriminate].
  intros _. exists d. repeat split; auto. now apply truthy_dict.
Qed.

(** C6: [set_job] returns [True] exactly when [data] is a non-empty mapping,
    the suite found in [data] is non-empty and the architecture found in the
    job is non-empty (non-empty being what [not] tests); it then stores the
    workspace and the data and the chroot name [suite-architecture]. *)
Theorem set_job_true_iff (self : IsoBuilder) (job : pydict) (ws : string) :
  (fst (set_job self job ws) = Ret true <->
   exists d, dict_get "data" job = PDict d /\ d <> [] /\
             truthy (dict_get "suite" d) = true /\
             truthy (dict_get "architecture" job) = true)
  /\ (forall d, dict_get "data" job = PDict d ->
        fst (set_job self job ws) = Ret true ->
        snd (set_job self job ws) =
          mkIsoBuilder (Some ws) (Some (PDict d))
            (Some (py_str (dict_get "suite" d) ++ "-"
                   ++ py_str (dict_get "architecture" job))))
  /\ (forall d suite arch,
        dict_get "data" job = PDict d ->
        dict_get "suite" d = PStr suite -> suite <> "" ->
        dict_get "architecture" job = PStr arch -> arch <> "" ->
        set_job self job ws =
          (Ret true,
           mkIsoBuilder (Some ws) (Some (PDict d)) (Some (suite ++ "-" ++ arch)))).
Proof.
  split; [split|split].
  - apply set_job_true_inv.
  - intros (d & Hd & Hne & Hs & Ha).
    now rewrite (set_job_accepts self job ws d).
  - intros d Hd Ht.
    destruct (set_job_true_inv _ _ _ Ht) as (d' & Hd' & Hne & Hs & Ha).
    assert (d' = d) by congruence; subst d'.
    now rewrite (set_job_accepts self job ws d).
  - intros d suite arch Hd Hs Hsne Ha Hane.
    assert (Hne : d <> []) by (intros ->; discriminate).
    rewrite (set_job_accepts self job ws d); auto.
    + now rewrite Hs, Ha.
    + rewrite Hs. now apply truthy_str.
    + rewrite Ha. now apply truthy_str.
Qed.

(** For suite [stable] and architecture [amd64] the chroot name is
    [stable-amd64]. *)
Lemma set_job_stable_amd64 :
  set_job new_builder job_stable_amd64 "/srv/ws" =
    (Ret true,
     mkIsoBuilder (Some "/srv/ws")
       (Some (PDict [("suite", PStr "stable");
                     ("liveBuildGit", PStr "https://example.org/lb.git")]))
       (Some "stable-amd64")).
Proof.
  apply (proj2 (proj2 (set_job_true_iff new_builder job_stable_amd64 "/srv/ws"))
           [("suite", PStr "stable");
            ("liveBuildGit", PStr "https://example.org/lb.git")] "stable" "amd64");
    first [reflexivity | discriminate].
Defined.

(** C2, as amended: when the data is absent or empty, or it is a mapping and
    the suite or the architecture is absent or empty, [set_job] returns
    [False] and assigns no chroot name; the workspace and the extracted data
    value have been assigned by then. *)
Theorem set_job_rejects (self : IsoBuilder) (job : pydict) (ws : string) :
  (truthy (dict_get "data" job) = false \/
   exists d, dict_get "data" job = PDict d /\
             (truthy (dict_get "suite" d) = false \/
              truthy (dict_get "architecture" job) = false)) ->
  set_job self job ws =
    (Ret false,
     mkIsoBuilder (Some ws) (Some (dict_get "data" job)) (_chroot_name self)).
Proof.
  unfold set_job.
  intros [H | (d & Hd & H)].
  - now rewrite H.
  - rewrite Hd. destruct (truthy (PDict d)); simpl; [|reflexivity].
    destruct (truthy (dict_get "suite" d)); simpl; [|reflexivity].
    destruct H as [H | H]; [discriminate|]. now rewrite H.
Qed.

Lemma set_job_rejects_missing_data :
  set_job new_builder job_without_data "/srv/ws" =
    (Ret false, mkIsoBuilder (Some "/srv/ws") (Some PNone) None).
Proof.
  apply (set_job_rejects new_builder job_without_data "/srv/ws").
  left. reflexivity.
Defined.

(** C2 as stated fails: a job whose data lacks the suite is rejected, yet the
    runner is no longer as it was: workspace and data have been stored. *)
Lemma set_job_failure_changes_state :
  fst (set_job new_builder job_suite_at_top "/srv/ws") = Ret false /\
  snd (set_job new_builder job_suite_at_top "/srv/ws") <> new_builder /\
  _workspace (snd (set_job new_builder job_suite_at_top "/srv/ws")) = Some "/srv/ws" /\
  _job_data (snd (set_job new_builder job_suite_at_top "/srv/ws")) =
    Some (PDict [("liveBuildGit", PStr "https://example.org/lb.git")]).
Proof. repeat split; discriminate. Qed.

(** C9 as stated fails: suite and architecture at the top level and a data
    mapping holding [liveBuildGit] are not accepted, the suite being looked up
    in [data]. *)
Lemma set_job_rejects_top_level_suite :
  dict_get "suite" job_suite_at_top = PStr "stable" /\
  dict_get "architecture" job_suite_at_top = PStr "amd64" /\
  (exists d, dict_get "data" job_suite_at_top = PDict d /\
             dict_get "liveBuildGit" d = PStr "https://example.org/lb.git") /\
  fst (set_job new_builder job_suite_at_top "/srv/ws") = Ret false.
Proof. repeat split. eexists; split; reflexivity. Qed.

(** C9, as amended: a job with a non-empty architecture string at the top
    level and a data mapping holding a non-empty suite string is accepted,
    whatever else it holds ([liveBuildGit] and a top-level suite play no
    part). *)
Theorem set_job_accepts_shaped_job
    (self : IsoBuilder) (job d : pydict) (ws suite arch : string) :
  dict_get "architecture" job = PStr arch -> arch <> "" ->
  dict_get "data" job = PDict d ->
  dict_get "suite" d = PStr suite -> suite <> "" ->
  fst (set_job self job ws) = Ret true.
Proof.
  intros Ha Hane Hd Hs Hsne.
  assert (Hne : d <> []) by (intros ->; discriminate).
  rewrite (set_job_accepts self job ws d); auto.
  - rewrite Hs. now apply truthy_str.
  - rewrite Ha. now apply truthy_str.
Qed.

Lemma set_job_accepts_two_word_flavor :
  fst (set_job new_builder job_two_word_flavor "/srv/ws") = Ret true.
Proof.
  apply (set_job_accepts_shaped_job new_builder job_two_word_flavor
           [("suite", PStr "stable");
            ("liveBuildGit", PStr "https://example.org/lb.git");
            ("flavor", PStr "a b")] "/srv/ws" "stable" "amd64");
    first [reflexivity | discriminate].
Defined.

(** ** The build script *)

(** The script of a runner whose data is a mapping: the listed lines around
    the quoted clone argument and the flavor line, or the [TypeError] of
    [shlex.quote]. *)
Lemma build_commands_eq (self : IsoBuilder) (d : pydict) (wsdir rd : string) :
  _job_data self = Some (PDict d) ->
  build_commands self wsdir rd =
    (let? quoted := shlex_quote (dict_get "liveBuildGit" d) in
     let? export :=
       (if truthy (dict_get "flavor" d)
        then let? q := shlex_quote (dict_get "flavor" d) in Ret [flavor_line q]
        else Ret []) in
     Ret (listed_script quoted wsdir rd export)).
Proof.
  intros H. unfold build_commands. rewrite H. simpl.
  destruct (shlex_quote (dict_get "liveBuildGit" d)); simpl; [|reflexivity].
  destruct (truthy (dict_get "flavor" d)); simpl; [|reflexivity].
  destruct (shlex_quote (dict_get "flavor" d)); reflexivity.
Qed.

Lemma flavor_step (v : pyval) :
  v = PNone \/ (exists f, v = PStr f) ->
  (if truthy v then let? q := shlex_quote v in Ret [flavor_line q] else Ret [])
  = Ret (flavor_export v).
Proof.
  intros [-> | [f ->]]; [reflexivity|].
  unfold flavor_export. rewrite shlex_quote_str. simpl.
  destruct (f =? ""); reflexivity.
Qed.

Lemma set_job_true_data (self self' : IsoBuilder) (job : pydict) (ws : string) :
  set_job self job ws = (Ret true, self') ->
  _job_data self' = Some (dict_get "data" job) /\
  exists name, _chroot_name self' = Some name.
Proof.
  intros H.
  assert (Ht : fst (set_job self job ws) = Ret true) by now rewrite H.
  destruct (set_job_true_inv _ _ _ Ht) as (d & Hd & Hne & Hs & Ha).
  rewrite (set_job_accepts self job ws d Hd Hne Hs Ha) in H.
  inversion H; subst; simpl. rewrite Hd. eauto.
Qed.

Ltac case_call :=
  match goal with
  | |- context [match ?x with _ => _ end] =>
      lazymatch x with
      | context [match _ with _ => _ end] => fail
      | _ => destruct x eqn:?
      end
  end.

(** Every way through [run], one goal for each. *)
Ltac run_paths :=
  unfold run, with_, bind, call, lift, normal, return_;
  repeat (cbn -[build_commands]; case_call).

(** What [run] hands to [make_commandfile] is what [build_commands] made for
    the directories that [spark_schroot] yielded. *)
Lemma run_make_commandfile {World Handle : Type} (P : SandboxProvider World Handle)
    (self : IsoBuilder) (jlog : JobLog) (w : World)
    (jid : string) (cmds : list string) (r : resp string) :
  In (EvMakeCommandfile jid cmds r) (transcript (run P self jlog w)) ->
  jid = job_id jlog /\
  exists wsdir rd, build_commands self wsdir rd = Ret cmds.
Proof.
  unfold transcript.
  destruct (_chroot_name self) as [name|] eqn:Hn; unfold run; rewrite Hn;
    [|simpl; contradiction].
  run_paths; cbn -[build_commands]; intros H;
    repeat match goal with H : _ \/ _ |- _ => destruct H as [H|H] end;
    try discriminate; try contradiction;
    inversion H; subst; split; eauto.
Qed.

(** The script file is made once both installs are through, from the
    directories that [spark_schroot] yielded, by a call of [make_commandfile]
    whose answer the transcript records. *)
Lemma run_make_commandfile_dirs {World Handle : Type} (P : SandboxProvider World Handle)
    (self : IsoBuilder) (jlog : JobLog) (w : World)
    (jid : string) (cmds : list string) (r : resp string) :
  In (EvMakeCommandfile jid cmds r) (transcript (run P self jlog w)) ->
  jid = job_id jlog
  /\ exists name chroot wsdir rd w1 wm,
       _chroot_name self = Some name
       /\ spark_schroot_enter P name (job_id jlog) w = (Returns (chroot, wsdir, rd), w1)
       /\ build_commands self wsdir rd = Ret cmds
       /\ r = fst (make_commandfile_enter P jid cmds wm).
Proof.
  unfold transcript.
  destruct (_chroot_name self) as [name|] eqn:Hn; unfold run; rewrite Hn;
    [|simpl; contradiction].
  run_paths; cbn -[build_commands]; intros H;
    repeat match goal with H : _ \/ _ |- _ => destruct H as [H|H] end;
    try discriminate; try contradiction;
    inversion H; subst; (split; [reflexivity|]);
    match goal with
    | He : spark_schroot_enter P _ _ w = (Returns (?c, ?ws, ?rd), ?w1),
      Hm : make_commandfile_enter P _ _ ?wm = _ |- _ =>
        exists name, c, ws, rd, w1, wm; rewrite Hm; repeat split; auto
    end.
Qed.

(** C1: for a job that [set_job] accepted, whose [liveBuildGit] is a string
    and whose flavor is absent or a string, the script is the listed sequence
    and nothing else, for the work directory and the results directory that
    [spark_schroot] yielded; once both installs have returned zero, [run]
    hands exactly that script to [make_commandfile], as its fifth helper call,
    and it hands no other script to it. *)
Theorem run_builds_listed_script {World Handle : Type} (P : SandboxProvider World Handle)
    (self self' : IsoBuilder) (job d : pydict) (ws url : string) :
  set_job self job ws = (Ret true, self') ->
  dict_get "data" job = PDict d ->
  dict_get "liveBuildGit" d = PStr url ->
  (dict_get "flavor" d = PNone \/ exists f, dict_get "flavor" d = PStr f) ->
  (forall wsdir rd,
     build_commands self' wsdir rd =
       Ret (listed_script (quote_str url) wsdir rd (flavor_export (dict_get "flavor" d))))
  /\ (forall jlog name chroot wsdir rd up w0 w1 w2 w3 w4,
        _chroot_name self' = Some name ->
        spark_schroot_enter P name (job_id jlog) w0 = (Returns (chroot, wsdir, rd), w1) ->
        chroot_upgrade P chroot jlog w1 = (Returns up, w2) ->
        chroot_run_logged P chroot jlog
          ["apt-get"; "install"; "-y"; "git"; "ca-certificates"] "root" w2
          = (Returns 0%Z, w3) ->
        chroot_run_logged P chroot jlog
          ["apt-get"; "install"; "-y"; "live-build"] "root" w3 = (Returns 0%Z, w4) ->
        firstn 5 (transcript (run P self' jlog w0)) =
          [EvSchrootEnter name (job_id jlog) (Returns (chroot, wsdir, rd));
           EvUpgrade chroot (Returns up);
           EvRunLogged chroot ["apt-get"; "install"; "-y"; "git"; "ca-certificates"]
             "root" (Returns 0%Z);
           EvRunLogged chroot ["apt-get"; "install"; "-y"; "live-build"] "root"
             (Returns 0%Z);
           EvMakeCommandfile (job_id jlog)
             (listed_script (quote_str url) wsdir rd (flavor_export (dict_get "flavor" d)))
             (fst (make_commandfile_enter P (job_id jlog)
                     (listed_script (quote_str url) wsdir rd
                        (flavor_export (dict_get "flavor" d))) w4))])
  /\ (forall jlog w jid cmds r,
        In (EvMakeCommandfile jid cmds r) (transcript (run P self' jlog w)) ->
        jid = job_id jlog
        /\ exists name chroot wsdir rd w1 wm,
             _chroot_name self' = Some name
             /\ spark_schroot_enter P name (job_id jlog) w
                = (Returns (chroot, wsdir, rd), w1)
             /\ cmds = listed_script (quote_str url) wsdir rd
                         (flavor_export (dict_get "flavor" d))
             /\ r = fst (make_commandfile_enter P jid cmds wm)).
Proof.
  intros Hset Hd Hurl Hfl.
  destruct (set_job_true_data _ _ _ _ Hset) as [Hjd _]. rewrite Hd in Hjd.
  assert (Hb : forall wsdir rd,
             build_commands self' wsdir rd =
               Ret (listed_script (quote_str url) wsdir rd
                      (flavor_export (dict_get "flavor" d)))).
  { intros wsdir rd. rewrite (build_commands_eq self' d wsdir rd Hjd).
    rewrite Hurl, shlex_quote_str. cbn [bind_outcome].
    rewrite (flavor_step _ Hfl). reflexivity. }
  split; [exact Hb|]. split.
  - intros jlog name chroot wsdir rd up w0 w1 w2 w3 w4 Hn Henter Hup Hgit Hlb.
    unfold transcript, run, with_, bind, call, lift, normal, return_.
    rewrite Hn. cbn -[build_commands].
    rewrite Henter, Hup. cbn -[build_commands].
    rewrite Hgit. cbn -[build_commands].
    rewrite Hlb, Hb. cbn -[build_commands].
    repeat (case_call; cbn -[build_commands]); reflexivity.
  - intros jlog w jid cmds r Hin.
    destruct (run_make_commandfile_dirs P self' jlog w jid cmds r Hin)
      as (Hjid & name & chroot & wsdir & rd & w1 & wm & Hn & Henter & Hc & Hr).
    split; [exact Hjid|].
    exists name, chroot, wsdir, rd, w1, wm.
    rewrite Hb in Hc. repeat split; auto; congruence.
Qed.

Lemma run_builds_listed_script_stable_amd64 :
  (forall wsdir rd,
     build_commands (configured job_stable_amd64 "/srv/ws") wsdir rd =
       Ret (listed_script "https://example.org/lb.git" wsdir rd []))
  /\ firstn 5 (transcript (run (scripted upgrade_fails)
                               (configured job_stable_amd64 "/srv/ws")
                               (mkJobLog "job-1") 0)) =
       [EvSchrootEnter "stable-amd64" "job-1" (Returns (tt, "/ws", "/res"));
        EvUpgrade tt (Returns (PBool false));
        EvRunLogged tt ["apt-get"; "install"; "-y"; "git"; "ca-certificates"] "root"
          (Returns 0%Z);
        EvRunLogged tt ["apt-get"; "install"; "-y"; "live-build"] "root" (Returns 0%Z);
        EvMakeCommandfile "job-1"
          (listed_script "https://example.org/lb.git" "/ws" "/res" [])
          (Returns "/tmp/job-1.sh")]
  /\ nth_error (listed_script "https://example.org/lb.git" "/ws" "/res" []) 1
       = Some "cd /ws"
  /\ nth_error (listed_script "https://example.org/lb.git" "/ws" "/res" []) 8
       = Some "mv *.iso /res/".
Proof.
  pose proof (run_builds_listed_script (scripted upgrade_fails) new_builder
                (configured job_stable_amd64 "/srv/ws") job_stable_amd64
                [("suite", PStr "stable");
                 ("liveBuildGit", PStr "https://example.org/lb.git")]
                "/srv/ws" "https://example.org/lb.git"
                eq_refl eq_refl eq_refl (or_introl eq_refl)) as [Hb [Hrun _]].
  split; [exact Hb|]. split; [|split; reflexivity].
  apply (Hrun (mkJobLog "job-1") "stable-amd64" tt "/ws" "/res" (PBool false) 0 1 2 3 4);
    reflexivity.
Defined.

(** The text of the moves: the one for [*.iso] is a plain [mv], the six
    others carry [-f]. *)
Theorem moves_force_all_but_iso (self : IsoBuilder) (wsdir rd : string)
    (cmds : list string) :
  build_commands self wsdir rd = Ret cmds ->
  filter (String.prefix "mv ") cmds =
    ["mv *.iso " ++ rd ++ "/";
     "mv -f *.zsync " ++ rd ++ "/";
     "mv -f *.contents " ++ rd ++ "/";
     "mv -f *.files " ++ rd ++ "/";
     "mv -f *.packages " ++ rd ++ "/";
     "mv -f *.b2sum " ++ rd ++ "/";
     "mv -f *.sha256sum " ++ rd ++ "/"]
  /\ map (String.prefix "mv -f ") (filter (String.prefix "mv ") cmds) =
       [false; true; true; true; true; true; true].
Proof.
  unfold build_commands, attr, py_get.
  destruct (_job_data self) as [[| | | | |d]|]; simpl; try discriminate.
  destruct (shlex_quote (dict_get "liveBuildGit" d)); simpl; try discriminate.
  destruct (truthy (dict_get "flavor" d)); simpl;
    [destruct (shlex_quote (dict_get "flavor" d)); simpl; try discriminate|];
    intros H; inversion H; subst; split; reflexivity.
Qed.

Lemma moves_force_all_but_iso_stable_amd64 :
  filter (String.prefix "mv ")
    (listed_script "https://example.org/lb.git" "/ws" "/res" []) =
    ["mv *.iso /res/"; "mv -f *.zsync /res/"; "mv -f *.contents /res/";
     "mv -f *.files /res/"; "mv -f *.packages /res/"; "mv -f *.b2sum /res/";
     "mv -f *.sha256sum /res/"]
  /\ map (String.prefix "mv -f ")
       (filter (String.prefix "mv ")
          (listed_script "https://example.org/lb.git" "/ws" "/res" [])) =
       [false; true; true; true; true; true; true].
Proof.
  apply (moves_force_all_but_iso (configured job_stable_amd64 "/srv/ws") "/ws" "/res").
  reflexivity.
Defined.

(** X18: the flavor line is there once for a non-empty flavor string and not
    at all for a flavor that is absent or empty. *)
Lemma flavor_lines_of_script (self : IsoBuilder) (d : pydict) (wsdir rd : string)
    (cmds : list string) :
  _job_data self = Some (PDict d) ->
  build_commands self wsdir rd = Ret cmds ->
  (truthy (dict_get "flavor" d) = false ->
   filter (String.prefix "export FLAVOR") cmds = [])
  /\ (forall f, dict_get "flavor" d = PStr f -> f <> "" ->
        filter (String.prefix "export FLAVOR") cmds = [flavor_line (quote_str f)]).
Proof.
  intros Hjd. rewrite (build_commands_eq self d wsdir rd Hjd).
  destruct (shlex_quote (dict_get "liveBuildGit" d)); simpl; [|discriminate].
  split.
  - intros Hf. rewrite Hf in H. simpl in H. inversion H; reflexivity.
  - intros f Hf Hne. rewrite Hf in H. rewrite shlex_quote_str in H.
    apply truthy_str in Hne. rewrite Hne in H. simpl in H.
    inversion H; reflexivity.
Qed.

(** C7, at the flavor [a b]: the word [shlex.quote] makes of any string
    denotes that string, and for [a b] it is ['a b'];  the script however
    holds the line [export FLAVOR="'a b'"], the word between double quotes,
    which denotes ['a b'] with the quotes included and not [a b]. *)
Theorem flavor_line_requotes :
  (forall f, sh_value (quote_str f) = Some f)
  /\ build_commands (configured job_two_word_flavor "/srv/ws") "/ws" "/res" =
       Ret (listed_script "https://example.org/lb.git" "/ws" "/res"
              ["export FLAVOR=" ++ String dquote ("'a b'" ++ String dquote "")])
  /\ sh_value (String dquote (quote_str "a b" ++ String dquote "")) = Some "'a b'"
  /\ sh_value (String dquote (quote_str "a b" ++ String dquote "")) <> Some "a b".
Proof.
  split; [exact sh_value_quote_str|].
  split; [reflexivity|].
  split; [reflexivity|].
  vm_compute. discriminate.
Qed.

(** When the script can be assembled, whatever [run] raises was raised by a
    helper. *)
Lemma run_raises_helper_faults {World Handle : Type} (P : SandboxProvider World Handle)
    (self : IsoBuilder) (jlog : JobLog) (w : World) (name : string) (e : exn) :
  _chroot_name self = Some name ->
  (forall wsdir rd, exists cmds, build_commands self wsdir rd = Ret cmds) ->
  result (run P self jlog w) = Exc e ->
  exists ev, In ev (transcript (run P self jlog w)) /\ raised ev = Some e.
Proof.
  intros Hn Hb. unfold result, transcript.
  destruct (run P self jlog w) as [[res w'] t] eqn:Hrun. cbn [fst snd].
  revert Hrun. unfold run at 1. rewrite Hn.
  run_paths; intros Hrun; inversion Hrun; subst; intros Hres;
    try discriminate;
    try (match goal with
         | H : build_commands self ?a ?b = Exc _ |- _ =>
             destruct (Hb a b) as [? ?]; congruence
         end);
    inversion Hres; subst;
    match goal with
    | |- exists ev, In ev ?l /\ _ =>
        let rec pick l :=
          lazymatch l with
          | ?x :: ?rest =>
              first [ exists x; split; [simpl; tauto | reflexivity] | pick rest ]
          end in
        pick l
    end.
Qed.

(** C10, as amended: a job with a non-empty data mapping, suite and
    architecture and no [liveBuildGit] is accepted, and quoting the missing
    value raises nothing: it gives the empty word, so that the clone line
    reads [git clone --depth=2 '' wsdir/lb] in a script that is otherwise the
    listed one. *)
Theorem set_job_ignores_missing_git (self : IsoBuilder) (job d : pydict) (ws : string) :
  dict_get "data" job = PDict d -> d <> [] ->
  truthy (dict_get "suite" d) = true ->
  truthy (dict_get "architecture" job) = true ->
  dict_get "liveBuildGit" d = PNone ->
  fst (set_job self job ws) = Ret true
  /\ shlex_quote (dict_get "liveBuildGit" d) = Ret "''"
  /\ (dict_get "flavor" d = PNone \/ (exists f, dict_get "flavor" d = PStr f) ->
      (forall wsdir rd,
         build_commands (snd (set_job self job ws)) wsdir rd =
           Ret (listed_script "''" wsdir rd (flavor_export (dict_get "flavor" d))))
      /\ (forall (World Handle : Type) (P : SandboxProvider World Handle) jlog w e,
            result (run P (snd (set_job self job ws)) jlog w) = Exc e ->
            exists ev, In ev (transcript (run P (snd (set_job self job ws)) jlog w))
                       /\ raised ev = Some e)).
Proof.
  intros Hd Hne Hs Ha Hgit.
  rewrite (set_job_accepts self job ws d Hd Hne Hs Ha). cbn [fst snd].
  rewrite Hgit. split; [reflexivity|]. split; [reflexivity|].
  intros Hfl.
  assert (Hb : forall wsdir rd,
             build_commands (mkIsoBuilder (Some ws) (Some (PDict d))
                 (Some (py_str (dict_get "suite" d) ++ "-"
                        ++ py_str (dict_get "architecture" job)))) wsdir rd =
               Ret (listed_script "''" wsdir rd (flavor_export (dict_get "flavor" d)))).
  { intros wsdir rd.
    rewrite build_commands_eq with (d := d) by reflexivity.
    rewrite Hgit. cbn [shlex_quote truthy negb bind_outcome].
    rewrite (flavor_step _ Hfl). reflexivity. }
  split; [exact Hb|].
  intros World Handle P jlog w e.
  eapply run_raises_helper_faults; [reflexivity|].
  intros wsdir rd. eexists. apply Hb.
Qed.

Lemma set_job_ignores_missing_git_stable_amd64 :
  fst (set_job new_builder job_without_git "/srv/ws") = Ret true
  /\ shlex_quote (dict_get "liveBuildGit" [("suite", PStr "stable")]) = Ret "''"
  /\ (dict_get "flavor" [("suite", PStr "stable")] = PNone
      \/ (exists f, dict_get "flavor" [("suite", PStr "stable")] = PStr f) ->
      (forall wsdir rd,
         build_commands (snd (set_job new_builder job_without_git "/srv/ws")) wsdir rd =
           Ret (listed_script "''" wsdir rd
                  (flavor_export (dict_get "flavor" [("suite", PStr "stable")]))))
      /\ (forall (World Handle : Type) (P : SandboxProvider World Handle) jlog w e,
            result (run P (snd (set_job new_builder job_without_git "/srv/ws")) jlog w)
              = Exc e ->
            exists ev,
              In ev (transcript
                       (run P (snd (set_job new_builder job_without_git "/srv/ws")) jlog w))
              /\ raised ev = Some e)).
Proof.
  apply (set_job_ignores_missing_git new_builder job_without_git
           [("suite", PStr "stable")] "/srv/ws");
    first [reflexivity | discriminate].
Defined.

(** C10 as stated fails: with no [liveBuildGit], and a build script that
    exits with status 1, [run] raises nothing and returns [False], having
    handed on a script whose clone line quotes the empty word. *)
Lemma run_without_git_returns_false :
  fst (set_job new_builder job_without_git "/srv/ws") = Ret true
  /\ result (run (scripted build_script_fails) (configured job_without_git "/srv/ws")
               (mkJobLog "job-1") 0) = Ret false
  /\ In (EvMakeCommandfile "job-1"
           (listed_script "''" "/ws" "/res" []) (Returns "/tmp/job-1.sh"))
        (transcript (run (scripted build_script_fails)
                         (configured job_without_git "/srv/ws") (mkJobLog "job-1") 0))
  /\ nth_error (listed_script "''" "/ws" "/res" []) 2 =
       Some "git clone --depth=2 '' /ws/lb".
Proof. repeat split. vm_compute. tauto. Qed.

(** ** The protocol of [run] *)

Lemma nonzero_true (ret : Z) : ret <> 0%Z -> nonzero ret = true.
Proof. intros H. unfold nonzero. apply Z.eqb_neq in H. now rewrite H. Qed.

(** C3: when the install of git and ca-certificates reports a nonzero status,
    the only helper call that follows is the release of the sandbox, and [run]
    returns [False] (or raises what the release raised). *)
Theorem run_stops_after_failed_git_install {World Handle : Type}
    (P : SandboxProvider World Handle) (self : IsoBuilder) (jlog : JobLog)
    (name wsdir rd : string) (chroot : Handle) (up : pyval) (ret : Z)
    (w0 w1 w2 w3 : World) :
  _chroot_name self = Some name ->
  spark_schroot_enter P name (job_id jlog) w0 = (Returns (chroot, wsdir, rd), w1) ->
  chroot_upgrade P chroot jlog w1 = (Returns up, w2) ->
  chroot_run_logged P chroot jlog
    ["apt-get"; "install"; "-y"; "git"; "ca-certificates"] "root" w2 = (Returns ret, w3) ->
  ret <> 0%Z ->
  run P self jlog w0 =
    (match fst (spark_schroot_exit P None w3) with
     | Returns _ => Ret false
     | Raises e => Exc e
     end,
     snd (spark_schroot_exit P None w3),
     [EvSchrootEnter name (job_id jlog) (Returns (chroot, wsdir, rd));
      EvUpgrade chroot (Returns up);
      EvRunLogged chroot ["apt-get"; "install"; "-y"; "git"; "ca-certificates"] "root"
        (Returns ret);
      EvSchrootExit None (fst (spark_schroot_exit P None w3))]).
Proof.
  intros Hn Henter Hup Hgit Hret.
  unfold run, with_, bind, call, lift, normal, return_.
  rewrite Hn. cbn -[build_commands].
  rewrite Henter, Hup. cbn -[build_commands].
  rewrite Hgit, (nonzero_true ret Hret). cbn -[build_commands].
  destruct (spark_schroot_exit P None w3) as [[b|e] w4]; reflexivity.
Qed.

Lemma run_stops_after_failed_git_install_scripted :
  run (scripted git_install_fails) (configured job_stable_amd64 "/srv/ws")
      (mkJobLog "job-1") 0 =
    (Ret false, 4,
     [EvSchrootEnter "stable-amd64" "job-1" (Returns (tt, "/ws", "/res"));
      EvUpgrade tt (Returns (PBool true));
      EvRunLogged tt ["apt-get"; "install"; "-y"; "git"; "ca-certificates"] "root"
        (Returns 100%Z);
      EvSchrootExit None (Returns false)]).
Proof.
  apply (run_stops_after_failed_git_install (scripted git_install_fails)
           (configured job_stable_amd64 "/srv/ws") (mkJobLog "job-1")
           "stable-amd64" "/ws" "/res" tt (PBool true) 100%Z 0 1 2 3);
    first [reflexivity | discriminate].
Defined.

(** Run against the counting provider, [run] does what it does against [P],
    and each count grows by one for every block that was entered. *)
Lemma run_counting {World Handle : Type} (P : SandboxProvider World Handle)
    (self : IsoBuilder) (jlog : JobLog) (w : World) (releases_before cleanups_before : nat) :
  run (counting P) self jlog (w, (releases_before, cleanups_before)) =
    (result (run P self jlog w),
     (world (run P self jlog w),
      (releases_before + length (filter is_entered (transcript (run P self jlog w))),
       cleanups_before + length (filter is_made (transcript (run P self jlog w))))),
     transcript (run P self jlog w)).
Proof.
  unfold result, world, transcript.
  destruct (run P self jlog w) as [[res w'] t] eqn:Hrun. cbn [fst snd].
  revert Hrun. unfold counting.
  run_paths; intros Hrun; inversion Hrun; subst; cbn;
    rewrite ?Nat.add_0_r, ?Nat.add_1_r; reflexivity.
Qed.

(** C4: once [spark_schroot] has yielded the sandbox, [spark_schroot_exit]
    is called exactly once, whatever the helpers answer afterwards and however
    [run] ends: the counting provider counts one release; the transcript
    holds one release, as its last entry, with the answer that call gave; and
    the world [run] leaves is the world that call left. *)
Theorem run_releases_once {World Handle : Type}
    (P : SandboxProvider World Handle) (self : IsoBuilder) (jlog : JobLog)
    (name wsdir rd : string) (chroot : Handle) (w0 w1 : World) :
  _chroot_name self = Some name ->
  spark_schroot_enter P name (job_id jlog) w0 = (Returns (chroot, wsdir, rd), w1) ->
  releases (transcript (run P self jlog w0)) = 1
  /\ is_release
       (last (transcript (run P self jlog w0))
             (EvSchrootEnter name (job_id jlog) (Returns (chroot, wsdir, rd)))) = true
  /\ run (counting P) self jlog (w0, (0, 0)) =
       (result (run P self jlog w0),
        (world (run P self jlog w0),
         (1, length (filter is_made (transcript (run P self jlog w0))))),
        transcript (run P self jlog w0))
  /\ exists exc wb,
       released_last P (run P self jlog w0)
         (EvSchrootEnter name (job_id jlog) (Returns (chroot, wsdir, rd))) exc wb.
Proof.
  intros Hn Henter.
  assert (Hcount : length (filter is_entered (transcript (run P self jlog w0))) = 1).
  { unfold transcript.
    destruct (run P self jlog w0) as [[res w'] t] eqn:Hrun. cbn [snd].
    revert Hrun. unfold run at 1. rewrite Hn.
    run_paths; intros Hrun; inversion Hrun; subst; try congruence; reflexivity. }
  rewrite (run_counting P self jlog w0 0 0), Hcount. cbn [Nat.add].
  unfold released_last, result, world, transcript.
  generalize (EvSchrootEnter name (job_id jlog) (Returns (chroot, wsdir, rd))) as dflt.
  intros dflt. clear Hcount.
  destruct (run P self jlog w0) as [[res w'] t] eqn:Hrun. cbn [fst snd].
  revert Hrun. unfold run at 1. rewrite Hn.
  run_paths; intros Hrun; inversion Hrun; subst; try congruence;
    (split; [reflexivity|]); (split; [reflexivity|]); (split; [reflexivity|]);
    match goal with
    | H : spark_schroot_exit P ?exc ?wb = _ |- _ =>
        exists exc, wb; rewrite H; cbn;
        repeat split; intros; congruence
    end.
Qed.

Lemma run_releases_once_when_copy_raises :
  releases (transcript (run (scripted copy_raises)
                            (configured job_stable_amd64 "/srv/ws") (mkJobLog "job-1") 0)) = 1
  /\ is_release
       (last (transcript (run (scripted copy_raises)
                              (configured job_stable_amd64 "/srv/ws") (mkJobLog "job-1") 0))
             (EvSchrootEnter "stable-amd64" "job-1" (Returns (tt, "/ws", "/res")))) = true
  /\ run (counting (scripted copy_raises)) (configured job_stable_amd64 "/srv/ws")
         (mkJobLog "job-1") (0, (0, 0)) =
       (result (run (scripted copy_raises) (configured job_stable_amd64 "/srv/ws")
                    (mkJobLog "job-1") 0),
        (world (run (scripted copy_raises) (configured job_stable_amd64 "/srv/ws")
                    (mkJobLog "job-1") 0),
         (1, length (filter is_made
                       (transcript (run (scripted copy_raises)
                                        (configured job_stable_amd64 "/srv/ws")
                                        (mkJobLog "job-1") 0))))),
        transcript (run (scripted copy_raises) (configured job_stable_amd64 "/srv/ws")
                        (mkJobLog "job-1") 0))
  /\ exists exc wb,
       released_last (scripted copy_raises)
         (run (scripted copy_raises) (configured job_stable_amd64 "/srv/ws")
              (mkJobLog "job-1") 0)
         (EvSchrootEnter "stable-amd64" "job-1" (Returns (tt, "/ws", "/res"))) exc wb.
Proof.
  apply (run_releases_once (scripted copy_raises)
           (configured job_stable_amd64 "/srv/ws") (mkJobLog "job-1")
           "stable-amd64" "/ws" "/res" tt 0 1);
    reflexivity.
Defined.

(** X17: when [spark_schroot] raises there is no sandbox, and nothing to
    release: the exception leaves [run] and no other helper is called. *)
Lemma run_no_release_without_sandbox {World Handle : Type}
    (P : SandboxProvider World Handle) (self : IsoBuilder) (jlog : JobLog)
    (name : string) (e : exn) (w0 w1 : World) :
  _chroot_name self = Some name ->
  spark_schroot_enter P name (job_id jlog) w0 = (Raises e, w1) ->
  run P self jlog w0 = (Exc e, w1, [EvSchrootEnter name (job_id jlog) (Raises e)]).
Proof.
  intros Hn Henter. unfold run, with_. rewrite Hn. cbn [attr]. now rewrite Henter.
Qed.

(** C5: when both installs and the script report status zero, [run] returns
    [True], whatever [chroot_upgrade] returned. *)
Theorem run_true_when_steps_succeed {World Handle : Type}
    (P : SandboxProvider World Handle) (self : IsoBuilder) (jlog : JobLog)
    (name wsdir rd shfname : string) (chroot : Handle) (up : pyval)
    (commands : list string) (swallow1 swallow2 : bool)
    (w0 w1 w2 w3 w4 w5 w6 w7 w8 w9 : World) :
  _chroot_name self = Some name ->
  spark_schroot_enter P name (job_id jlog) w0 = (Returns (chroot, wsdir, rd), w1) ->
  chroot_upgrade P chroot jlog w1 = (Returns up, w2) ->
  chroot_run_logged P chroot jlog
    ["apt-get"; "install"; "-y"; "git"; "ca-certificates"] "root" w2 = (Returns 0%Z, w3) ->
  chroot_run_logged P chroot jlog
    ["apt-get"; "install"; "-y"; "live-build"] "root" w3 = (Returns 0%Z, w4) ->
  build_commands self wsdir rd = Ret commands ->
  make_commandfile_enter P (job_id jlog) commands w4 = (Returns shfname, w5) ->
  chroot_copy P chroot shfname shfname w5 = (Returns tt, w6) ->
  chroot_run_logged P chroot jlog ["sh"; "-e"; shfname] "root" w6 = (Returns 0%Z, w7) ->
  make_commandfile_exit P None w7 = (Returns swallow1, w8) ->
  spark_schroot_exit P None w8 = (Returns swallow2, w9) ->
  run P self jlog w0 =
    (Ret true, w9,
     [EvSchrootEnter name (job_id jlog) (Returns (chroot, wsdir, rd));
      EvUpgrade chroot (Returns up);
      EvRunLogged chroot ["apt-get"; "install"; "-y"; "git"; "ca-certificates"] "root"
        (Returns 0%Z);
      EvRunLogged chroot ["apt-get"; "install"; "-y"; "live-build"] "root" (Returns 0%Z);
      EvMakeCommandfile (job_id jlog) commands (Returns shfname);
      EvCopy chroot shfname shfname (Returns tt);
      EvRunLogged chroot ["sh"; "-e"; shfname] "root" (Returns 0%Z);
      EvCommandfileExit None (Returns swallow1);
      EvSchrootExit None (Returns swallow2)]).
Proof.
  intros Hn Henter Hup Hgit Hlb Hcmds Hmake Hcopy Hsh Hclean Hexit.
  unfold run, with_, bind, call, lift, normal, return_.
  rewrite Hn. cbn -[build_commands].
  rewrite Henter, Hup. cbn -[build_commands].
  rewrite Hgit. cbn -[build_commands].
  rewrite Hlb, Hcmds. cbn -[build_commands].
  rewrite Hmake, Hcopy. cbn -[build_commands].
  rewrite Hsh. cbn -[build_commands].
  rewrite Hclean. cbn -[build_commands].
  rewrite Hexit. reflexivity.
Qed.

Lemma run_true_though_upgrade_failed :
  run (scripted upgrade_fails) (configured job_stable_amd64 "/srv/ws")
      (mkJobLog "job-1") 0 =
    (Ret true, 9,
     [EvSchrootEnter "stable-amd64" "job-1" (Returns (tt, "/ws", "/res"));
      EvUpgrade tt (Returns (PBool false));
      EvRunLogged tt ["apt-get"; "install"; "-y"; "git"; "ca-certificates"] "root"
        (Returns 0%Z);
      EvRunLogged tt ["apt-get"; "install"; "-y"; "live-build"] "root" (Returns 0%Z);
      EvMakeCommandfile "job-1"
        (listed_script "https://example.org/lb.git" "/ws" "/res" [])
        (Returns "/tmp/job-1.sh");
      EvCopy tt "/tmp/job-1.sh" "/tmp/job-1.sh" (Returns tt);
      EvRunLogged tt ["sh"; "-e"; "/tmp/job-1.sh"] "root" (Returns 0%Z);
      EvCommandfileExit None (Returns false);
      EvSchrootExit None (Returns false)]).
Proof.
  apply (run_true_when_steps_succeed (scripted upgrade_fails)
           (configured job_stable_amd64 "/srv/ws") (mkJobLog "job-1")
           "stable-amd64" "/ws" "/res" "/tmp/job-1.sh" tt (PBool false)
           (listed_script "https://example.org/lb.git" "/ws" "/res" [])
           false false 0 1 2 3 4 5 6 7 8 9);
    reflexivity.
Defined.

(** * Further properties *)

(** ** [set_job] beyond the accepted and the rejected jobs *)

(** X1: a [data] that is true without being a mapping (a string, a number, a
    list) makes [set_job] raise [AttributeError] at the lookup of the suite,
    with workspace and data already stored and the chroot name as it was. *)
Theorem set_job_data_not_a_mapping (self : IsoBuilder) (job : pydict) (ws : string) :
  truthy (dict_get "data" job) = true ->
  (forall d, dict_get "data" job <> PDict d) ->
  set_job self job ws =
    (Exc AttributeError,
     mkIsoBuilder (Some ws) (Some (dict_get "data" job)) (_chroot_name self)).
Proof.
  intros Ht Hnd. unfold set_job. rewrite Ht. cbn [negb].
  destruct (dict_get "data" job); try reflexivity.
  now destruct (Hnd d).
Qed.

Lemma set_job_data_is_text :
  set_job new_builder job_data_is_text "/srv/ws" =
    (Exc AttributeError,
     mkIsoBuilder (Some "/srv/ws") (Some (PStr "suite=stable")) None).
Proof.
  apply (set_job_data_not_a_mapping new_builder job_data_is_text "/srv/ws");
    [reflexivity | discriminate].
Defined.

(** The three ways [set_job] ends. *)
Lemma set_job_cases (self : IsoBuilder) (job : pydict) (ws : string) :
  let stored := mkIsoBuilder (Some ws) (Some (dict_get "data" job)) in
  set_job self job ws = (Ret false, stored (_chroot_name self))
  \/ set_job self job ws = (Exc AttributeError, stored (_chroot_name self))
  \/ exists name, set_job self job ws = (Ret true, stored (Some name)).
Proof.
  unfold set_job. cbn zeta.
  destruct (truthy (dict_get "data" job)); cbn [negb]; [|now left].
  destruct (dict_get "data" job); cbn [py_get]; try (right; left; reflexivity).
  destruct (truthy (dict_get "suite" d)); cbn [negb]; [|now left].
  destruct (truthy (dict_get "architecture" job)); cbn [negb]; [|now left].
  right; right. eexists. reflexivity.
Qed.

(** X2: however [set_job] ends, it has stored the workspace and the value of
    [data]; the chroot name is replaced when it returns [True] and is the old
    one otherwise, so that a runner configured for one job and then offered a
    job it rejects keeps the first job's chroot name beside the second job's
    data. *)
Theorem set_job_stores (self : IsoBuilder) (job : pydict) (ws : string) :
  _workspace (snd (set_job self job ws)) = Some ws
  /\ _job_data (snd (set_job self job ws)) = Some (dict_get "data" job)
  /\ (fst (set_job self job ws) = Ret true \/
      _chroot_name (snd (set_job self job ws)) = _chroot_name self).
Proof.
  destruct (set_job_cases self job ws) as [H | [H | [name H]]];
    rewrite H; cbn; auto.
Qed.

(** X3: configuring twice with the same job and workspace is configuring
    once. *)
Theorem set_job_idempotent (self : IsoBuilder) (job : pydict) (ws : string) :
  set_job (snd (set_job self job ws)) job ws = set_job self job ws.
Proof.
  unfold set_job. cbn zeta.
  destruct (truthy (dict_get "data" job)); cbn [negb snd]; [|reflexivity].
  destruct (dict_get "data" job); cbn [py_get snd]; try reflexivity.
  destruct (truthy (dict_get "suite" d)); cbn [negb snd]; [|reflexivity].
  destruct (truthy (dict_get "architecture" job)); cbn [negb snd]; reflexivity.
Qed.

(** X4: a fresh runner whose [set_job] did not return [True] cannot run:
    [run] raises [AttributeError] on reading the chroot name, before any
    helper is called. *)
Theorem run_after_failed_set_job {World Handle : Type}
    (P : SandboxProvider World Handle) (job : pydict) (ws : string)
    (jlog : JobLog) (w : World) :
  fst (set_job new_builder job ws) <> Ret true ->
  run P (snd (set_job new_builder job ws)) jlog w = (Exc AttributeError, w, []).
Proof.
  intros Hf.
  destruct (set_job_cases new_builder job ws) as [H | [H | [name H]]];
    rewrite H in *; cbn [fst snd] in *; try reflexivity.
  now destruct Hf.
Qed.

Lemma run_after_failed_set_job_top_level_suite :
  run (scripted upgrade_fails) (snd (set_job new_builder job_suite_at_top "/srv/ws"))
      (mkJobLog "job-1") 0 = (Exc AttributeError, 0, []).
Proof.
  apply (run_after_failed_set_job (scripted upgrade_fails) job_suite_at_top "/srv/ws"
           (mkJobLog "job-1") 0).
  discriminate.
Defined.

Lemma hyphen_free_split (s1 s2 a1 a2 : string) :
  contains "-" s1 = false -> contains "-" s2 = false ->
  s1 ++ "-" ++ a1 = s2 ++ "-" ++ a2 -> s1 = s2 /\ a1 = a2.
Proof.
  revert s2. induction s1 as [|c1 s1 IH]; intros [|c2 s2] H1 H2 E; cbn in E.
  - inversion E. auto.
  - inversion E; subst c2. cbn in H2. discriminate.
  - inversion E; subst c1. cbn in H1. discriminate.
  - inversion E; subst c2.
    unfold contains in H1, H2. cbn in H1, H2.
    apply orb_false_iff in H1 as [_ H1]. apply orb_false_iff in H2 as [_ H2].
    destruct (IH s2 H1 H2 H3) as [-> ->]. auto.
Qed.

(** X5: among jobs whose suite holds no hyphen, the chroot name tells suite
    and architecture apart: two accepted jobs with the same chroot name have
    the same suite and the same architecture. *)
Theorem chroot_name_determines_suite_and_arch
    (self1 self2 : IsoBuilder) (job1 job2 d1 d2 : pydict)
    (ws1 ws2 suite1 suite2 arch1 arch2 : string) :
  dict_get "data" job1 = PDict d1 -> dict_get "suite" d1 = PStr suite1 ->
  dict_get "architecture" job1 = PStr arch1 ->
  dict_get "data" job2 = PDict d2 -> dict_get "suite" d2 = PStr suite2 ->
  dict_get "architecture" job2 = PStr arch2 ->
  contains "-" suite1 = false -> contains "-" suite2 = false ->
  fst (set_job self1 job1 ws1) = Ret true ->
  fst (set_job self2 job2 ws2) = Ret true ->
  _chroot_name (snd (set_job self1 job1 ws1)) =
    _chroot_name (snd (set_job self2 job2 ws2)) ->
  suite1 = suite2 /\ arch1 = arch2.
Proof.
  intros Hd1 Hs1 Ha1 Hd2 Hs2 Ha2 Hh1 Hh2 Ht1 Ht2.
  destruct (set_job_true_inv _ _ _ Ht1) as (d1' & Hd1' & Hne1 & Hts1 & Hta1).
  destruct (set_job_true_inv _ _ _ Ht2) as (d2' & Hd2' & Hne2 & Hts2 & Hta2).
  assert (d1' = d1) by congruence. assert (d2' = d2) by congruence. subst d1' d2'.
  rewrite (set_job_accepts self1 job1 ws1 d1 Hd1 Hne1 Hts1 Hta1).
  rewrite (set_job_accepts self2 job2 ws2 d2 Hd2 Hne2 Hts2 Hta2).
  cbn [snd _chroot_name]. rewrite Hs1, Ha1, Hs2, Ha2. cbn [py_str].
  intros E. inversion E as [E']. now apply hyphen_free_split.
Qed.

Lemma chroot_name_determines_stable_amd64 : "stable" = "stable" /\ "amd64" = "amd64".
Proof.
  apply (chroot_name_determines_suite_and_arch new_builder new_builder
           job_stable_amd64 job_without_git
           [("suite", PStr "stable");
            ("liveBuildGit", PStr "https://example.org/lb.git")]
           [("suite", PStr "stable")] "/srv/a" "/srv/b");
    reflexivity.
Defined.

(** ** More on the build script *)

Lemma shlex_quote_unquotable (v : pyval) :
  unquotable v = true -> shlex_quote v = Exc TypeError.
Proof.
  unfold unquotable, shlex_quote. intros H. apply andb_prop in H as [Ht Hs].
  rewrite Ht. destruct v; try reflexivity. discriminate.
Qed.

Lemma shlex_quote_quotable (v : pyval) :
  unquotable v = false -> exists q, shlex_quote v = Ret q.
Proof.
  unfold unquotable, shlex_quote. intros H.
  destruct (truthy v); cbn [negb]; [|eauto].
  destruct v; try discriminate. eauto.
Qed.

(** X6: with a mapping for data, assembling the script raises exactly when
    [liveBuildGit] or the flavor is a true value that is not a string (a
    number, a list, a mapping), and what it raises is [TypeError]; in every
    other case, a missing or empty [liveBuildGit] among them, the script is
    assembled. *)
Theorem build_commands_raises_iff (self : IsoBuilder) (d : pydict) (wsdir rd : string) :
  _job_data self = Some (PDict d) ->
  (unquotable (dict_get "liveBuildGit" d) || unquotable (dict_get "flavor" d) = true ->
   build_commands self wsdir rd = Exc TypeError)
  /\ (unquotable (dict_get "liveBuildGit" d) || unquotable (dict_get "flavor" d) = false ->
      exists cmds, build_commands self wsdir rd = Ret cmds).
Proof.
  intros Hjd. rewrite (build_commands_eq self d wsdir rd Hjd).
  split; intros H.
  - destruct (unquotable (dict_get "liveBuildGit" d)) eqn:G.
    + now rewrite (shlex_quote_unquotable _ G).
    + destruct (shlex_quote_quotable _ G) as [q ->]. cbn [bind_outcome].
      cbn [orb] in H. rewrite (shlex_quote_unquotable _ H).
      unfold unquotable in H. apply andb_prop in H as [-> _]. reflexivity.
  - apply orb_false_iff in H as [G F].
    destruct (shlex_quote_quotable _ G) as [q ->]. cbn [bind_outcome].
    destruct (truthy (dict_get "flavor" d)); [|cbn; eauto].
    destruct (shlex_quote_quotable _ F) as [qf ->]. cbn. eauto.
Qed.

Lemma build_commands_raises_two_repositories :
  (unquotable (PList [PStr "https://example.org/a.git"; PStr "https://example.org/b.git"])
   || unquotable PNone = true ->
   build_commands (configured job_two_repositories "/srv/ws") "/ws" "/res" = Exc TypeError)
  /\ (unquotable (PList [PStr "https://example.org/a.git"; PStr "https://example.org/b.git"])
      || unquotable PNone = false ->
      exists cmds,
        build_commands (configured job_two_repositories "/srv/ws") "/ws" "/res" = Ret cmds).
Proof.
  apply (build_commands_raises_iff (configured job_two_repositories "/srv/ws")
           [("suite", PStr "stable");
            ("liveBuildGit", PList [PStr "https://example.org/a.git";
                                    PStr "https://example.org/b.git"])] "/ws" "/res").
  reflexivity.
Defined.

(** X7: whatever string [liveBuildGit] is, the third line of the script is
    the clone command with one word for the repository, and that word
    denotes the string itself. *)
Theorem clone_line_denotes_url (self : IsoBuilder) (d : pydict) (url wsdir rd : string)
    (cmds : list string) :
  _job_data self = Some (PDict d) ->
  dict_get "liveBuildGit" d = PStr url ->
  build_commands self wsdir rd = Ret cmds ->
  exists word,
    nth_error cmds 2 = Some ("git clone --depth=2 " ++ word ++ " " ++ wsdir ++ "/lb")
    /\ sh_value word = Some url.
Proof.
  intros Hjd Hurl. rewrite (build_commands_eq self d wsdir rd Hjd).
  rewrite Hurl, shlex_quote_str. cbn [bind_outcome].
  destruct (truthy (dict_get "flavor" d));
    [destruct (shlex_quote (dict_get "flavor" d))|]; cbn [bind_outcome];
    intros H; inversion H; subst; exists (quote_str url);
    (split; [reflexivity | apply sh_value_quote_str]).
Qed.

Lemma clone_line_denotes_url_stable_amd64 :
  exists word,
    nth_error (listed_script "https://example.org/lb.git" "/ws" "/res" []) 2 =
      Some ("git clone --depth=2 " ++ word ++ " /ws/lb")
    /\ sh_value word = Some "https://example.org/lb.git".
Proof.
  apply (clone_line_denotes_url (configured job_stable_amd64 "/srv/ws")
           [("suite", PStr "stable");
            ("liveBuildGit", PStr "https://example.org/lb.git")]
           "https://example.org/lb.git" "/ws" "/res");
    reflexivity.
Defined.

(** ** More on the protocol of [run] *)

Lemma nonzero_false (ret : Z) : nonzero ret = false -> ret = 0%Z.
Proof.
  unfold nonzero. intros H. apply negb_false_iff in H. now apply Z.eqb_eq.
Qed.

Lemma nonzero_true_inv (ret : Z) : nonzero ret = true -> ret <> 0%Z.
Proof.
  unfold nonzero. intros H. apply negb_true_iff in H. now apply Z.eqb_neq.
Qed.

(** X8: the helpers are called in one fixed order.  A transcript of [run] is
    a beginning of: enter the sandbox, upgrade, install git and
    ca-certificates, install live-build, make the script file, copy it, run
    [sh -e] on it; followed by the removal of the script file if the file was
    made, and by the release of the sandbox if the sandbox was entered. *)
Theorem run_protocol_order {World Handle : Type} (P : SandboxProvider World Handle)
    (self : IsoBuilder) (jlog : JobLog) (w : World) :
  In (map step_of (transcript (run P self jlog w)))
     [ [];
       [SEnter];
       [SEnter; SUpgrade; SRelease];
       [SEnter; SUpgrade; SInstallGit; SRelease];
       [SEnter; SUpgrade; SInstallGit; SInstallLiveBuild; SRelease];
       [SEnter; SUpgrade; SInstallGit; SInstallLiveBuild; SMake; SRelease];
       [SEnter; SUpgrade; SInstallGit; SInstallLiveBuild; SMake; SCopy;
        SCleanup; SRelease];
       [SEnter; SUpgrade; SInstallGit; SInstallLiveBuild; SMake; SCopy; SRunScript;
        SCleanup; SRelease] ].
Proof.
  unfold transcript.
  destruct (run P self jlog w) as [[res w'] t] eqn:Hrun. cbn [snd].
  revert Hrun.
  run_paths; intros Hrun; inversion Hrun; subst; cbn;
    repeat (first [left; reflexivity | right]).
Qed.

(** X9: [make_commandfile_exit] is called exactly once when
    [make_commandfile] yielded a file and never otherwise, and at most one
    file is made: the counting provider counts as many removals as files
    made, and every removal in the transcript bears the answer of such a
    call. *)
Theorem run_removes_script_file_once {World Handle : Type}
    (P : SandboxProvider World Handle) (self : IsoBuilder) (jlog : JobLog) (w : World) :
  length (filter is_cleanup (transcript (run P self jlog w))) =
    length (filter is_made (transcript (run P self jlog w)))
  /\ length (filter is_made (transcript (run P self jlog w))) <= 1
  /\ snd (world (run (counting P) self jlog (w, (0, 0)))) =
       (length (filter is_entered (transcript (run P self jlog w))),
        length (filter is_made (transcript (run P self jlog w))))
  /\ result (run (counting P) self jlog (w, (0, 0))) = result (run P self jlog w)
  /\ transcript (run (counting P) self jlog (w, (0, 0))) = transcript (run P self jlog w)
  /\ (forall exc r,
        In (EvCommandfileExit exc r) (transcript (run P self jlog w)) ->
        exists wb, r = fst (make_commandfile_exit P exc wb)).
Proof.
  rewrite (run_counting P self jlog w 0 0).
  unfold transcript, world, result. cbn [fst snd Nat.add].
  destruct (run P self jlog w) as [[res w'] t] eqn:Hrun. cbn [fst snd].
  revert Hrun.
  run_paths; intros Hrun; inversion Hrun; subst; cbn;
    (split; [reflexivity|]); (split; [auto|]); (split; [reflexivity|]);
    (split; [reflexivity|]); (split; [reflexivity|]);
    intros exc r Hin;
    repeat match goal with H : _ \/ _ |- _ => destruct H as [H|H] end;
    try discriminate; try contradiction;
    inversion Hin; subst;
    match goal with
    | H : make_commandfile_exit P ?e ?wb = _ |- _ => exists wb; now rewrite H
    end.
Qed.

(** X10: every command [run] executes in the chroot runs as root and is one
    of three: the install of git and ca-certificates, the install of
    live-build, or [sh -e] on a script file that [make_commandfile] yielded
    and that was copied into the same chroot, under the same name. *)
Theorem run_commands_as_root {World Handle : Type} (P : SandboxProvider World Handle)
    (self : IsoBuilder) (jlog : JobLog) (w : World)
    (chroot : Handle) (argv : list string) (user : string) (r : resp Z) :
  In (EvRunLogged chroot argv user r) (transcript (run P self jlog w)) ->
  user = "root"
  /\ (argv = ["apt-get"; "install"; "-y"; "git"; "ca-certificates"]
      \/ argv = ["apt-get"; "install"; "-y"; "live-build"]
      \/ exists shfname cmds,
           argv = ["sh"; "-e"; shfname]
           /\ In (EvMakeCommandfile (job_id jlog) cmds (Returns shfname))
                 (transcript (run P self jlog w))
           /\ In (EvCopy chroot shfname shfname (Returns tt))
                 (transcript (run P self jlog w))).
Proof.
  unfold transcript.
  destruct (run P self jlog w) as [[res w'] t] eqn:Hrun. cbn [snd].
  revert Hrun.
  run_paths; intros Hrun; inversion Hrun; subst; cbn; intros H;
    repeat match goal with H : _ \/ _ |- _ => destruct H as [H|H] end;
    try discriminate; try contradiction;
    inversion H; subst; (split; [reflexivity|]);
    first [ left; reflexivity
          | right; left; reflexivity
          | right; right; do 2 eexists; split; [reflexivity|];
            repeat match goal with u : unit |- _ => destruct u end;
            split; eauto 12 ].
Qed.

Lemma run_commands_as_root_scripted :
  "root" = "root"
  /\ (["sh"; "-e"; "/tmp/job-1.sh"] = ["apt-get"; "install"; "-y"; "git"; "ca-certificates"]
      \/ ["sh"; "-e"; "/tmp/job-1.sh"] = ["apt-get"; "install"; "-y"; "live-build"]
      \/ exists shfname cmds,
           ["sh"; "-e"; "/tmp/job-1.sh"] = ["sh"; "-e"; shfname]
           /\ In (EvMakeCommandfile "job-1" cmds (Returns shfname))
                 (transcript (run (scripted build_script_fails)
                                  (configured job_stable_amd64 "/srv/ws")
                                  (mkJobLog "job-1") 0))
           /\ In (EvCopy tt shfname shfname (Returns tt))
                 (transcript (run (scripted build_script_fails)
                                  (configured job_stable_amd64 "/srv/ws")
                                  (mkJobLog "job-1") 0))).
Proof.
  apply (run_commands_as_root (scripted build_script_fails)
           (configured job_stable_amd64 "/srv/ws") (mkJobLog "job-1") 0
           tt ["sh"; "-e"; "/tmp/job-1.sh"] "root" (Returns 1%Z)).
  cbn. tauto.
Defined.

(** X11: [run] returns [False] only after a command reported a nonzero
    status: the transcript then holds a command, run as root, that returned
    nonzero. *)
Theorem run_false_has_failed_command {World Handle : Type}
    (P : SandboxProvider World Handle) (self : IsoBuilder) (jlog : JobLog) (w : World) :
  result (run P self jlog w) = Ret false ->
  exists chroot argv ret,
    In (EvRunLogged chroot argv "root" (Returns ret)) (transcript (run P self jlog w))
    /\ ret <> 0%Z.
Proof.
  unfold result, transcript.
  destruct (run P self jlog w) as [[res w'] t] eqn:Hrun. cbn [fst snd].
  revert Hrun.
  run_paths; intros Hrun; inversion Hrun; subst; intros Hres; try discriminate;
    repeat match goal with
           | H : nonzero _ = true |- _ => apply nonzero_true_inv in H
           | H : nonzero _ = false |- _ => apply nonzero_false in H; subst
           end;
    do 3 eexists; (split; [cbn; eauto 12 | eassumption]).
Qed.

Lemma run_false_has_failed_command_scripted :
  exists chroot argv ret,
    In (EvRunLogged chroot argv "root" (Returns ret))
       (transcript (run (scripted git_install_fails)
                        (configured job_stable_amd64 "/srv/ws") (mkJobLog "job-1") 0))
    /\ ret <> 0%Z.
Proof.
  apply (run_false_has_failed_command (scripted git_install_fails)
           (configured job_stable_amd64 "/srv/ws") (mkJobLog "job-1") 0).
  reflexivity.
Defined.

(** X12: when [run] returns [True] and no block swallowed an exception, both
    installs and the script were run and each reported status zero. *)
Theorem run_true_has_all_commands {World Handle : Type}
    (P : SandboxProvider World Handle) (self : IsoBuilder) (jlog : JobLog) (w : World) :
  result (run P self jlog w) = Ret true ->
  existsb swallowed (transcript (run P self jlog w)) = false ->
  exists chroot shfname,
    In (EvRunLogged chroot ["apt-get"; "install"; "-y"; "git"; "ca-certificates"] "root"
          (Returns 0%Z)) (transcript (run P self jlog w))
    /\ In (EvRunLogged chroot ["apt-get"; "install"; "-y"; "live-build"] "root"
             (Returns 0%Z)) (transcript (run P self jlog w))
    /\ In (EvRunLogged chroot ["sh"; "-e"; shfname] "root" (Returns 0%Z))
          (transcript (run P self jlog w)).
Proof.
  unfold result, transcript.
  destruct (run P self jlog w) as [[res w'] t] eqn:Hrun. cbn [fst snd].
  revert Hrun.
  run_paths; intros Hrun; inversion Hrun; subst; intros Hres; try discriminate;
    cbn; intros Hsw; try discriminate;
    repeat match goal with
           | H : nonzero _ = false |- _ => apply nonzero_false in H; subst
           end;
    do 2 eexists; repeat split; eauto 12.
Qed.

Lemma run_true_has_all_commands_scripted :
  exists chroot shfname,
    In (EvRunLogged chroot ["apt-get"; "install"; "-y"; "git"; "ca-certificates"] "root"
          (Returns 0%Z))
       (transcript (run (scripted upgrade_fails)
                        (configured job_stable_amd64 "/srv/ws") (mkJobLog "job-1") 0))
    /\ In (EvRunLogged chroot ["apt-get"; "install"; "-y"; "live-build"] "root"
             (Returns 0%Z))
          (transcript (run (scripted upgrade_fails)
                           (configured job_stable_amd64 "/srv/ws") (mkJobLog "job-1") 0))
    /\ In (EvRunLogged chroot ["sh"; "-e"; shfname] "root" (Returns 0%Z))
          (transcript (run (scripted upgrade_fails)
                           (configured job_stable_amd64 "/srv/ws") (mkJobLog "job-1") 0)).
Proof.
  apply (run_true_has_all_commands (scripted upgrade_fails)
           (configured job_stable_amd64 "/srv/ws") (mkJobLog "job-1") 0);
    reflexivity.
Defined.

(** X13: when the install of live-build reports a nonzero status, no script
    file is made and nothing is copied or run: the sandbox is released and
    [run] returns [False] (or raises what the release raised). *)
Theorem run_stops_after_failed_live_build_install {World Handle : Type}
    (P : SandboxProvider World Handle) (self : IsoBuilder) (jlog : JobLog)
    (name wsdir rd : string) (chroot : Handle) (up : pyval) (ret : Z)
    (w0 w1 w2 w3 w4 : World) :
  _chroot_name self = Some name ->
  spark_schroot_enter P name (job_id jlog) w0 = (Returns (chroot, wsdir, rd), w1) ->
  chroot_upgrade P chroot jlog w1 = (Returns up, w2) ->
  chroot_run_logged P chroot jlog
    ["apt-get"; "install"; "-y"; "git"; "ca-certificates"] "root" w2 = (Returns 0%Z, w3) ->
  chroot_run_logged P chroot jlog
    ["apt-get"; "install"; "-y"; "live-build"] "root" w3 = (Returns ret, w4) ->
  ret <> 0%Z ->
  run P self jlog w0 =
    (match fst (spark_schroot_exit P None w4) with
     | Returns _ => Ret false
     | Raises e => Exc e
     end,
     snd (spark_schroot_exit P None w4),
     [EvSchrootEnter name (job_id jlog) (Returns (chroot, wsdir, rd));
      EvUpgrade chroot (Returns up);
      EvRunLogged chroot ["apt-get"; "install"; "-y"; "git"; "ca-certificates"] "root"
        (Returns 0%Z);
      EvRunLogged chroot ["apt-get"; "install"; "-y"; "live-build"] "root" (Returns ret);
      EvSchrootExit None (fst (spark_schroot_exit P None w4))]).
Proof.
  intros Hn Henter Hup Hgit Hlb Hret.
  unfold run, with_, bind, call, lift, normal, return_.
  rewrite Hn. cbn -[build_commands].
  rewrite Henter, Hup. cbn -[build_commands].
  rewrite Hgit. cbn -[build_commands].
  rewrite Hlb, (nonzero_true ret Hret). cbn -[build_commands].
  destruct (spark_schroot_exit P None w4) as [[b|e] w5]; reflexivity.
Qed.

Lemma run_stops_after_failed_live_build_install_scripted :
  run (scripted live_build_install_fails) (configured job_stable_amd64 "/srv/ws")
      (mkJobLog "job-1") 0 =
    (Ret false, 5,
     [EvSchrootEnter "stable-amd64" "job-1" (Returns (tt, "/ws", "/res"));
      EvUpgrade tt (Returns (PBool true));
      EvRunLogged tt ["apt-get"; "install"; "-y"; "git"; "ca-certificates"] "root"
        (Returns 0%Z);
      EvRunLogged tt ["apt-get"; "install"; "-y"; "live-build"] "root" (Returns 100%Z);
      EvSchrootExit None (Returns false)]).
Proof.
  apply (run_stops_after_failed_live_build_install (scripted live_build_install_fails)
           (configured job_stable_amd64 "/srv/ws") (mkJobLog "job-1")
           "stable-amd64" "/ws" "/res" tt (PBool true) 100%Z 0 1 2 3 4);
    first [reflexivity | discriminate].
Defined.



(** X15: a job whose script cannot be assembled is found out only after the
    upgrade and both installs have run: [run] then makes no script file, tells
    the release of the exception and raises it (unless the release swallows
    it or raises another). *)
Theorem run_assembly_fault {World Handle : Type}
    (P : SandboxProvider World Handle) (self : IsoBuilder) (jlog : JobLog)
    (name wsdir rd : string) (chroot : Handle) (up : pyval) (e : exn)
    (w0 w1 w2 w3 w4 : World) :
  _chroot_name self = Some name ->
  spark_schroot_enter P name (job_id jlog) w0 = (Returns (chroot, wsdir, rd), w1) ->
  chroot_upgrade P chroot jlog w1 = (Returns up, w2) ->
  chroot_run_logged P chroot jlog
    ["apt-get"; "install"; "-y"; "git"; "ca-certificates"] "root" w2 = (Returns 0%Z, w3) ->
  chroot_run_logged P chroot jlog
    ["apt-get"; "install"; "-y"; "live-build"] "root" w3 = (Returns 0%Z, w4) ->
  build_commands self wsdir rd = Exc e ->
  run P self jlog w0 =
    (match fst (spark_schroot_exit P (Some e) w4) with
     | Returns swallow => if swallow then Ret true else Exc e
     | Raises e' => Exc e'
     end,
     snd (spark_schroot_exit P (Some e) w4),
     [EvSchrootEnter name (job_id jlog) (Returns (chroot, wsdir, rd));
      EvUpgrade chroot (Returns up);
      EvRunLogged chroot ["apt-get"; "install"; "-y"; "git"; "ca-certificates"] "root"
        (Returns 0%Z);
      EvRunLogged chroot ["apt-get"; "install"; "-y"; "live-build"] "root" (Returns 0%Z);
      EvSchrootExit (Some e) (fst (spark_schroot_exit P (Some e) w4))]).
Proof.
  intros Hn Henter Hup Hgit Hlb Hcmds.
  unfold run, with_, bind, call, lift, normal, return_.
  rewrite Hn. cbn -[build_commands].
  rewrite Henter, Hup. cbn -[build_commands].
  rewrite Hgit. cbn -[build_commands].
  rewrite Hlb, Hcmds. cbn -[build_commands].
  destruct (spark_schroot_exit P (Some e) w4) as [[[|]|e'] w5]; reflexivity.
Qed.

Lemma run_assembly_fault_two_repositories :
  run (scripted upgrade_fails) (configured job_two_repositories "/srv/ws")
      (mkJobLog "job-1") 0 =
    (Exc TypeError, 5,
     [EvSchrootEnter "stable-amd64" "job-1" (Returns (tt, "/ws", "/res"));
      EvUpgrade tt (Returns (PBool false));
      EvRunLogged tt ["apt-get"; "install"; "-y"; "git"; "ca-certificates"] "root"
        (Returns 0%Z);
      EvRunLogged tt ["apt-get"; "install"; "-y"; "live-build"] "root" (Returns 0%Z);
      EvSchrootExit (Some TypeError) (Returns false)]).
Proof.
  apply (run_assembly_fault (scripted upgrade_fails)
           (configured job_two_repositories "/srv/ws") (mkJobLog "job-1")
           "stable-amd64" "/ws" "/res" tt (PBool false) TypeError 0 1 2 3 4);
    reflexivity.
Defined.

(** X16: the value [chroot_upgrade] returns is ignored, an exception it
    raises is not: no install is attempted, the release is told of the
    exception and [run] raises it (unless the release swallows it or raises
    another). *)
Theorem run_upgrade_fault {World Handle : Type}
    (P : SandboxProvider World Handle) (self : IsoBuilder) (jlog : JobLog)
    (name wsdir rd : string) (chroot : Handle) (e : exn) (w0 w1 w2 : World) :
  _chroot_name self = Some name ->
  spark_schroot_enter P name (job_id jlog) w0 = (Returns (chroot, wsdir, rd), w1) ->
  chroot_upgrade P chroot jlog w1 = (Raises e, w2) ->
  run P self jlog w0 =
    (match fst (spark_schroot_exit P (Some e) w2) with
     | Returns swallow => if swallow then Ret true else Exc e
     | Raises e' => Exc e'
     end,
     snd (spark_schroot_exit P (Some e) w2),
     [EvSchrootEnter name (job_id jlog) (Returns (chroot, wsdir, rd));
      EvUpgrade chroot (Raises e);
      EvSchrootExit (Some e) (fst (spark_schroot_exit P (Some e) w2))]).
Proof.
  intros Hn Henter Hup.
  unfold run, with_, bind, call, lift, normal, return_.
  rewrite Hn. cbn -[build_commands].
  rewrite Henter, Hup. cbn -[build_commands].
  destruct (spark_schroot_exit P (Some e) w2) as [[[|]|e'] w3]; reflexivity.
Qed.

Lemma run_upgrade_fault_scripted :
  run (scripted upgrade_raises) (configured job_stable_amd64 "/srv/ws")
      (mkJobLog "job-1") 0 =
    (Exc (SandboxFault "upgrade"), 3,
     [EvSchrootEnter "stable-amd64" "job-1" (Returns (tt, "/ws", "/res"));
      EvUpgrade tt (Raises (SandboxFault "upgrade"));
      EvSchrootExit (Some (SandboxFault "upgrade")) (Returns false)]).
Proof.
  apply (run_upgrade_fault (scripted upgrade_raises)
           (configured job_stable_amd64 "/srv/ws") (mkJobLog "job-1")
           "stable-amd64" "/ws" "/res" tt (SandboxFault "upgrade") 0 1 2);
    reflexivity.
Defined.

(** [spark_schroot] raising, at a provider that knows no such chroot. *)
Lemma run_no_release_without_sandbox_scripted :
  run (scripted no_such_chroot) (configured job_stable_amd64 "/srv/ws")
      (mkJobLog "job-1") 0 =
    (Exc (SandboxFault "schroot"), 1,
     [EvSchrootEnter "stable-amd64" "job-1" (Raises (SandboxFault "schroot"))]).
Proof.
  apply (run_no_release_without_sandbox (scripted no_such_chroot)
           (configured job_stable_amd64 "/srv/ws") (mkJobLog "job-1")
           "stable-amd64" (SandboxFault "schroot") 0 1);
    reflexivity.
Defined.

Lemma flavor_lines_of_two_word_flavor :
  (truthy (PStr "a b") = false ->
   filter (String.prefix "export FLAVOR")
     (listed_script "https://example.org/lb.git" "/ws" "/res"
        [flavor_line (quote_str "a b")]) = [])
  /\ (forall f, PStr "a b" = PStr f -> f <> "" ->
        filter (String.prefix "export FLAVOR")
          (listed_script "https://example.org/lb.git" "/ws" "/res"
             [flavor_line (quote_str "a b")]) = [flavor_line (quote_str f)]).
Proof.
  apply (flavor_lines_of_script (configured job_two_word_flavor "/srv/ws")
           [("suite", PStr "stable");
            ("liveBuildGit", PStr "https://example.org/lb.git");
            ("flavor", PStr "a b")] "/ws" "/res");
    reflexivity.
Defined.

(** ** The moves at run time *)




